(** * The client state store of the HabitMax mini app

    A shallow embedding of [webapp/src/store/useHabitStore.ts] and of the
    data types of [webapp/src/types/index.ts], with the properties of the
    store's actions and derived queries.

    Numbers.  TypeScript's [number] is an IEEE 754 binary64 value.  The
    fields the data model declares integral (identities, streaks, counters)
    are carried as [Z], the integer the binary64 value stands for; on them
    [===] is the equality of integers, and [+] is the integer sum rounded
    to binary64 ([JS.add]), which is the integer sum itself up to 2^53 and
    loses the low bits beyond.  Quantities the code obtains by division are
    computed in binary64 itself ([JS.number], Rocq's [spec_float] at
    precision 53), because there the rounding of each operation shows. *)

From Stdlib Require Import ZArith Lia SpecFloat.
From stdpp Require Import base option list strings gmap.

(** ** JavaScript numbers *)

Module JS.

Definition prec : Z := 53.
Definition emax : Z := 1024.

(** A binary64 value: [S754_finite s m e] is (-1)^s * m * 2^e. *)
Definition number : Type := spec_float.

(** The binary64 value of an integer literal or of an array length. *)
Definition of_int (z : Z) : number := binary_normalize prec emax z 0 false.

Definition of_nat (n : nat) : number := of_int (Z.of_nat n).

(** [x / y] and [x * y], each rounded to nearest, ties to even. *)
Definition div (x y : number) : number := SFdiv prec emax x y.
Definition mul (x y : number) : number := SFmul prec emax x y.

(** [Math.round(x)]: the integer closest to [x], a tie going towards
    +Infinity; NaN, the infinities and the zeros are returned as they
    are, and a result of zero keeps the sign of [x].  For a finite
    [x = v * 2^e] with [e < 0] the integer is
    [floor (x + 1/2) = floor ((2 v + 2^-e) / 2^(1-e))], computed exactly. *)
Definition Math_round (x : number) : number :=
  match x with
  | S754_finite s m e =>
      if (0 <=? e)%Z then x
      else
        let r := ((2 * cond_Zopp s (Z.pos m) + 2 ^ (- e)) / 2 ^ (1 - e))%Z in
        if (r =? 0)%Z then S754_zero s else of_int r
  | _ => x
  end.

(** The values [Math.min] and [Math.max] take over integers: an integer,
    or an infinity when there is no argument. *)
Inductive extended : Type :=
| NegInfinity
| Int (z : Z)
| Infinity.

Definition min2 (a b : extended) : extended :=
  match a, b with
  | NegInfinity, _ | _, NegInfinity => NegInfinity
  | Infinity, c | c, Infinity => c
  | Int x, Int y => Int (Z.min x y)
  end.

Definition max2 (a b : extended) : extended :=
  match a, b with
  | Infinity, _ | _, Infinity => Infinity
  | NegInfinity, c | c, NegInfinity => c
  | Int x, Int y => Int (Z.max x y)
  end.

(** [Math.min(...xs)] and [Math.max(...xs)]. *)
Definition Math_min (xs : list Z) : extended :=
  foldr (fun x acc => min2 (Int x) acc) Infinity xs.

Definition Math_max (xs : list Z) : extended :=
  foldr (fun x acc => max2 (Int x) acc) NegInfinity xs.

(** The binary64 value nearest to the integer [z], a tie going to the
    even significand.  An integer of at most 53 bits is a binary64 value;
    of a longer one the [k] bits below the 53rd are rounded off: [q] is
    the significand kept, [r] what is below it, [half] the tie. *)
Definition round53 (z : Z) : Z :=
  let a := Z.abs z in
  let k := (Z.log2 a + 1 - prec)%Z in
  if (k <=? 0)%Z then z
  else
    let q := (a / 2 ^ k)%Z in
    let r := (a mod 2 ^ k)%Z in
    let half := (2 ^ (k - 1))%Z in
    let q' :=
      if (r <? half)%Z then q
      else if (half <? r)%Z then (q + 1)%Z
      else if Z.even q then q else (q + 1)%Z in
    (Z.sgn z * (q' * 2 ^ k))%Z.

(** [x + y] on two integers held in binary64: the exact sum, rounded.
    (The store only ever adds 1, and a finite binary64 value plus 1 is
    finite, so the infinities do not arise.) *)
Definition add (x y : Z) : Z := round53 (x + y).

End JS.

(** ** The data types of [types/index.ts] *)

Module Habit.
Record t : Type := mk {
  id : Z;
  name : string;
  description : option string;
  emoji : string;
  reminder_time : option string;
  frequency : string;
  target_days : Z;
  is_active : bool;
  current_streak : Z;
  best_streak : Z;
  total_completions : Z;
  progress_percentage : JS.number;
  is_completed_today : bool;
  created_at : string
}.
End Habit.

(** [Partial<Habit>]: every key may be absent ([None]).  An optional key of
    [Habit] that is present may itself hold [undefined]. *)
Module PartialHabit.
Record t : Type := mk {
  id : option Z;
  name : option string;
  description : option (option string);
  emoji : option string;
  reminder_time : option (option string);
  frequency : option string;
  target_days : option Z;
  is_active : option bool;
  current_streak : option Z;
  best_streak : option Z;
  total_completions : option Z;
  progress_percentage : option JS.number;
  is_completed_today : option bool;
  created_at : option string
}.

(** The object literal with no key. *)
Definition empty : t :=
  mk None None None None None None None None None None None None None None.
End PartialHabit.

Module WeeklySummary.
Record t : Type := mk {
  week_start : string;
  week_end : string;
  total_habits : Z;
  completed_count : Z;
  skipped_count : Z;
  best_streak : Z;
  completion_rate : JS.number;
  ai_summary : string;
  motivational_message : string;
  tips : list string;
  generated_at : string;
  is_cached : bool;
  share_text : string
}.
End WeeklySummary.

Module FailurePattern.
Record t : Type := mk {
  day_of_week : string;
  time_of_day : option string;
  reason : option string;
  frequency : JS.number
}.
End FailurePattern.

Module Strategy.
Inductive difficulty_t : Type := easy | medium | hard.
Record t : Type := mk {
  title : string;
  description : string;
  action_steps : list string;
  difficulty : difficulty_t;
  estimated_effectiveness : JS.number
}.
End Strategy.

Module FailureAnalysis.
Record t : Type := mk {
  habit_id : option Z;
  habit_name : option string;
  failure_count : Z;
  failure_rate : JS.number;
  common_patterns : list FailurePattern.t;
  skip_reasons : list string;
  empathetic_message : string;
  root_causes : list string;
  strategies : list Strategy.t;
  generated_at : string;
  is_cached : bool
}.
End FailureAnalysis.

Module UserSettings.
Inductive theme_t : Type := light | dark | system.
Record t : Type := mk {
  ai_enabled : bool;
  notification_enabled : bool;
  timezone : string;
  theme : theme_t
}.
End UserSettings.

Module UserStats.
Record t : Type := mk {
  total_habits : Z;
  active_habits : Z;
  total_completions : Z;
  best_streak : Z;
  current_streak : Z;
  completion_rate_7d : JS.number;
  completion_rate_30d : JS.number
}.
End UserStats.

Module User.
Record t : Type := mk {
  id : Z;
  first_name : string;
  last_name : option string;
  username : option string;
  settings : UserSettings.t;
  stats : UserStats.t;
  created_at : string;
  last_active : option string
}.
End User.

Module DayProgress.
Record t : Type := mk {
  date : string;
  completed : Z;
  total : Z;
  percentage : JS.number
}.
End DayProgress.

Module WeeklyProgress.
Record t : Type := mk {
  week_start : string;
  week_end : string;
  days : list DayProgress.t;
  total_completed : Z;
  total_habits : Z;
  average_percentage : JS.number
}.
End WeeklyProgress.

(** ** Object spread *)

(** A key of the right-hand object, when present, overrides the left one. *)
Definition override {A : Type} (left : A) (right : option A) : A :=
  match right with
  | Some v => v
  | None => left
  end.

(** [{ ...h, ...updates }] *)
Definition spread (h : Habit.t) (updates : PartialHabit.t) : Habit.t :=
  {| Habit.id := override (Habit.id h) (PartialHabit.id updates);
     Habit.name := override (Habit.name h) (PartialHabit.name updates);
     Habit.description :=
       override (Habit.description h) (PartialHabit.description updates);
     Habit.emoji := override (Habit.emoji h) (PartialHabit.emoji updates);
     Habit.reminder_time :=
       override (Habit.reminder_time h) (PartialHabit.reminder_time updates);
     Habit.frequency :=
       override (Habit.frequency h) (PartialHabit.frequency updates);
     Habit.target_days :=
       override (Habit.target_days h) (PartialHabit.target_days updates);
     Habit.is_active :=
       override (Habit.is_active h) (PartialHabit.is_active updates);
     Habit.current_streak :=
       override (Habit.current_streak h) (PartialHabit.current_streak updates);
     Habit.best_streak :=
       override (Habit.best_streak h) (PartialHabit.best_streak updates);
     Habit.total_completions :=
       override (Habit.total_completions h)
                (PartialHabit.total_completions updates);
     Habit.progress_percentage :=
       override (Habit.progress_percentage h)
                (PartialHabit.progress_percentage updates);
     Habit.is_completed_today :=
       override (Habit.is_completed_today h)
                (PartialHabit.is_completed_today updates);
     Habit.created_at :=
       override (Habit.created_at h) (PartialHabit.created_at updates) |}.

(** ** The store *)

(** The data and UI fields of [HabitState]; [null] is [None]. *)
Module HabitState.
Record t : Type := mk {
  habits : list Habit.t;
  user : option User.t;
  weeklySummary : option WeeklySummary.t;
  failureAnalysis : option FailureAnalysis.t;
  weeklyProgress : option WeeklyProgress.t;
  isLoading : bool;
  error : option string;
  selectedHabitId : option Z
}.
End HabitState.

(** The object an action hands to [set]: the keys it names. *)
Module Patch.
Record t : Type := mk {
  habits : option (list Habit.t);
  user : option (option User.t);
  weeklySummary : option (option WeeklySummary.t);
  failureAnalysis : option (option FailureAnalysis.t);
  weeklyProgress : option (option WeeklyProgress.t);
  isLoading : option bool;
  error : option (option string);
  selectedHabitId : option (option Z)
}.

Definition empty : t := mk None None None None None None None None.

Definition of_habits (hs : list Habit.t) : t :=
  mk (Some hs) None None None None None None None.
Definition of_user (u : User.t) : t :=
  mk None (Some (Some u)) None None None None None None.
Definition of_weeklySummary (x : WeeklySummary.t) : t :=
  mk None None (Some (Some x)) None None None None None.
Definition of_failureAnalysis (x : FailureAnalysis.t) : t :=
  mk None None None (Some (Some x)) None None None None.
Definition of_weeklyProgress (x : WeeklyProgress.t) : t :=
  mk None None None None (Some (Some x)) None None None.
Definition of_isLoading (b : bool) : t :=
  mk None None None None None (Some b) None None.
Definition of_error (e : option string) : t :=
  mk None None None None None None (Some e) None.
Definition of_selectedHabitId (i : option Z) : t :=
  mk None None None None None None None (Some i).
End Patch.

(** [Object.assign({}, state, patch)] *)
Definition assign (state : HabitState.t) (patch : Patch.t) : HabitState.t :=
  {| HabitState.habits :=
       override (HabitState.habits state) (Patch.habits patch);
     HabitState.user := override (HabitState.user state) (Patch.user patch);
     HabitState.weeklySummary :=
       override (HabitState.weeklySummary state) (Patch.weeklySummary patch);
     HabitState.failureAnalysis :=
       override (HabitState.failureAnalysis state)
                (Patch.failureAnalysis patch);
     HabitState.weeklyProgress :=
       override (HabitState.weeklyProgress state) (Patch.weeklyProgress patch);
     HabitState.isLoading :=
       override (HabitState.isLoading state) (Patch.isLoading patch);
     HabitState.error := override (HabitState.error state) (Patch.error patch);
     HabitState.selectedHabitId :=
       override (HabitState.selectedHabitId state)
                (Patch.selectedHabitId patch) |}.

(** The store's [set]: the patch, computed from the current state, is
    merged into it.  [set(obj)] is [set (fun _ => obj)]. *)
Definition set (partial : HabitState.t -> Patch.t) (state : HabitState.t)
  : HabitState.t :=
  assign state (partial state).

(** The initial state. *)
Definition initialState : HabitState.t :=
  {| HabitState.habits := [];
     HabitState.user := None;
     HabitState.weeklySummary := None;
     HabitState.failureAnalysis := None;
     HabitState.weeklyProgress := None;
     HabitState.isLoading := false;
     HabitState.error := None;
     HabitState.selectedHabitId := None |}.

(** *** Actions *)

Definition setHabits (habits : list Habit.t) : HabitState.t -> HabitState.t :=
  set (fun _ => Patch.of_habits habits).

Definition addHabit (habit : Habit.t) : HabitState.t -> HabitState.t :=
  set (fun state => Patch.of_habits (HabitState.habits state ++ [habit])).

Definition updateHabit (id : Z) (updates : PartialHabit.t)
  : HabitState.t -> HabitState.t :=
  set (fun state =>
         Patch.of_habits
           (map (fun h => if (Habit.id h =? id)%Z then spread h updates else h)
                (HabitState.habits state))).

Definition removeHabit (id : Z) : HabitState.t -> HabitState.t :=
  set (fun state =>
         Patch.of_habits
           (List.filter (fun h => negb (Habit.id h =? id)%Z)
                        (HabitState.habits state))).

(** The object literal of [completeHabit]: [h] spread, then three keys. *)
Definition completed (h : Habit.t) : Habit.t :=
  spread h
    {| PartialHabit.id := None;
       PartialHabit.name := None;
       PartialHabit.description := None;
       PartialHabit.emoji := None;
       PartialHabit.reminder_time := None;
       PartialHabit.frequency := None;
       PartialHabit.target_days := None;
       PartialHabit.is_active := None;
       PartialHabit.current_streak := Some (JS.add (Habit.current_streak h) 1);
       PartialHabit.best_streak := None;
       PartialHabit.total_completions :=
         Some (JS.add (Habit.total_completions h) 1);
       PartialHabit.progress_percentage := None;
       PartialHabit.is_completed_today := Some true;
       PartialHabit.created_at := None |}.

Definition completeHabit (id : Z) : HabitState.t -> HabitState.t :=
  set (fun state =>
         Patch.of_habits
           (map (fun h => if (Habit.id h =? id)%Z then completed h else h)
                (HabitState.habits state))).

Definition setUser (user : User.t) : HabitState.t -> HabitState.t :=
  set (fun _ => Patch.of_user user).
Definition setWeeklySummary (summary : WeeklySummary.t)
  : HabitState.t -> HabitState.t :=
  set (fun _ => Patch.of_weeklySummary summary).
Definition setFailureAnalysis (analysis : FailureAnalysis.t)
  : HabitState.t -> HabitState.t :=
  set (fun _ => Patch.of_failureAnalysis analysis).
Definition setWeeklyProgress (progress : WeeklyProgress.t)
  : HabitState.t -> HabitState.t :=
  set (fun _ => Patch.of_weeklyProgress progress).
Definition setLoading (isLoading : bool) : HabitState.t -> HabitState.t :=
  set (fun _ => Patch.of_isLoading isLoading).
Definition setError (error : option string) : HabitState.t -> HabitState.t :=
  set (fun _ => Patch.of_error error).
Definition selectHabit (id : option Z) : HabitState.t -> HabitState.t :=
  set (fun _ => Patch.of_selectedHabitId id).

(** *** Computed values *)

Definition getTodayProgress (state : HabitState.t) : JS.number :=
  let habits := HabitState.habits state in
  if (length habits =? 0)%nat then JS.of_int 0
  else
    let completed := length (List.filter Habit.is_completed_today habits) in
    JS.Math_round
      (JS.mul (JS.div (JS.of_nat completed) (JS.of_nat (length habits)))
              (JS.of_int 100)).

Definition getCompletedToday (state : HabitState.t) : nat :=
  length (List.filter Habit.is_completed_today (HabitState.habits state)).

Module StreakData.
Record t : Type := mk { current : JS.extended; best : JS.extended }.
End StreakData.

Definition getStreakData (state : HabitState.t) : StreakData.t :=
  let habits := HabitState.habits state in
  let current :=
    if (0 <? length habits)%nat
    then JS.Math_min (map Habit.current_streak habits)
    else JS.Int 0 in
  let best :=
    if (0 <? length habits)%nat
    then JS.Math_max (map Habit.best_streak habits)
    else JS.Int 0 in
  {| StreakData.current := current; StreakData.best := best |}.

(** ** Persistence *)

Module Persist.

(** The object [partialize] returns. *)
Record snapshot : Type := mk {
  user : option User.t;
  habits : list Habit.t
}.

(** The options handed to the [persist] middleware. *)
Definition name : string := "habitmax-storage".

Definition partialize (state : HabitState.t) : snapshot :=
  {| user := HabitState.user state; habits := HabitState.habits state |}.

(** Modelled from the spec: the [persist] middleware is a library, not
    under src/.  The persistence contract of the spec is a durable
    key-value slot under the fixed key, written with the partialized
    state on every mutation and read back on start "if present and
    well-formed".  A slot is carried as the value its text denotes
    ([Snapshot]), or as [Malformed] when the text denotes none. *)
Inductive slot : Type :=
| Malformed
| Snapshot (s : snapshot).

(** Modelled from the spec: the store together with the durable storage. *)
Record world : Type := World {
  store : HabitState.t;
  localStorage : gmap string slot
}.

(** Modelled from the spec: "the subset {user, habits} is serialized to a
    durable key-value slot under a fixed namespace key". *)
Definition setItem (state : HabitState.t) (storage : gmap string slot)
  : gmap string slot :=
  <[name := Snapshot (partialize state)]> storage.

(** Modelled from the spec: "on every mutation" the slot is written. *)
Definition dispatch (action : HabitState.t -> HabitState.t) (w : world)
  : world :=
  let state := action (store w) in
  {| store := state; localStorage := setItem state (localStorage w) |}.

(** Modelled from the spec: the keys of the snapshot laid over the
    initial state. *)
Definition merge (persisted : snapshot) (current : HabitState.t)
  : HabitState.t :=
  assign current
    {| Patch.habits := Some (habits persisted);
       Patch.user := Some (user persisted);
       Patch.weeklySummary := None;
       Patch.failureAnalysis := None;
       Patch.weeklyProgress := None;
       Patch.isLoading := None;
       Patch.error := None;
       Patch.selectedHabitId := None |}.

(** Modelled from the spec: "on process start, that slot is read back
    (if present and well-formed) to seed initial state". *)
Definition rehydrate (storage : gmap string slot) : HabitState.t :=
  match storage !! name with
  | Some (Snapshot persisted) => merge persisted initialState
  | Some Malformed | None => initialState
  end.

(** Modelled from the spec: a cold start over the storage left behind. *)
Definition restart (w : world) : world :=
  {| store := rehydrate (localStorage w); localStorage := localStorage w |}.

End Persist.

(** ** Sample data *)

Module Sample.

(** A habit with the given identity, counters and flag. *)
Definition habit (id current best total : Z) (done : bool) : Habit.t :=
  {| Habit.id := id;
     Habit.name := "Read";
     Habit.description := None;
     Habit.emoji := "R";
     Habit.reminder_time := Some "08:00";
     Habit.frequency := "daily";
     Habit.target_days := 7;
     Habit.is_active := true;
     Habit.current_streak := current;
     Habit.best_streak := best;
     Habit.total_completions := total;
     Habit.progress_percentage := JS.of_int 0;
     Habit.is_completed_today := done;
     Habit.created_at := "2024-01-01" |}.

Definition with_habits (hs : list Habit.t) : HabitState.t :=
  {| HabitState.habits := hs;
     HabitState.user := None;
     HabitState.weeklySummary := None;
     HabitState.failureAnalysis := None;
     HabitState.weeklyProgress := None;
     HabitState.isLoading := true;
     HabitState.error := Some "offline";
     HabitState.selectedHabitId := Some 2%Z |}.

Definition rename (n : string) : PartialHabit.t :=
  {| PartialHabit.id := None;
     PartialHabit.name := Some n;
     PartialHabit.description := None;
     PartialHabit.emoji := None;
     PartialHabit.reminder_time := None;
     PartialHabit.frequency := None;
     PartialHabit.target_days := None;
     PartialHabit.is_active := None;
     PartialHabit.current_streak := None;
     PartialHabit.best_streak := None;
     PartialHabit.total_completions := None;
     PartialHabit.progress_percentage := None;
     PartialHabit.is_completed_today := None;
     PartialHabit.created_at := None |}.

Definition user : User.t :=
  {| User.id := 42;
     User.first_name := "Ada";
     User.last_name := None;
     User.username := Some "ada";
     User.settings :=
       {| UserSettings.ai_enabled := true;
          UserSettings.notification_enabled := false;
          UserSettings.timezone := "UTC";
          UserSettings.theme := UserSettings.system |};
     User.stats :=
       {| UserStats.total_habits := 2;
          UserStats.active_habits := 2;
          UserStats.total_completions := 9;
          UserStats.best_streak := 5;
          UserStats.current_streak := 1;
          UserStats.completion_rate_7d := JS.of_int 50;
          UserStats.completion_rate_30d := JS.of_int 40 |};
     User.created_at := "2024-01-01";
     User.last_active := None |}.

(** Three habits, the second completed today. *)
Definition three : HabitState.t :=
  with_habits [habit 1 3 5 10 false; habit 2 0 0 0 true; habit 3 7 9 20 false].

(** Two habits that share the identity 1, as [addHabit] lets them. *)
Definition twins : HabitState.t :=
  with_habits [habit 1 3 5 10 false; habit 1 0 2 4 false; habit 3 7 9 20 false].

(** Forty habits, twenty-three of them completed today. *)
Definition forty : HabitState.t :=
  with_habits (replicate 23 (habit 1 1 1 1 true)
               ++ replicate 17 (habit 2 0 0 0 false)).

End Sample.

(** ** The spec's reading of the derived values *)

Module Spec.

(** "round(100 * completedCount / totalCount)", and 0 for the empty
    collection: the integer closest to the exact quotient, a tie going
    up as [Math.round] takes it; [floor (q + 1/2)] for [q = 100 c / n]
    is [floor ((200 c + n) / (2 n))]. *)
Definition todayProgress (habits : list Habit.t) : Z :=
  let totalCount := Z.of_nat (length habits) in
  let completedCount :=
    Z.of_nat (length (List.filter Habit.is_completed_today habits)) in
  if (totalCount =? 0)%Z then 0%Z
  else ((200 * completedCount + totalCount) / (2 * totalCount))%Z.

End Spec.

(** [m] is the least element of [xs]. *)
Definition is_minimum (m : Z) (xs : list Z) : Prop :=
  m ∈ xs /\ forall x, x ∈ xs -> (m <= x)%Z.

(** [m] is the greatest element of [xs]. *)
Definition is_maximum (m : Z) (xs : list Z) : Prop :=
  m ∈ xs /\ forall x, x ∈ xs -> (x <= m)%Z.

(** The habits of a collection that carry the identity [id]. *)
Definition matching (id : Z) (habits : list Habit.t) : list Habit.t :=
  List.filter (fun h => (Habit.id h =? id)%Z) habits.

#[global] Instance spec_float_eq_dec : EqDecision spec_float.
Proof. solve_decision. Defined.

(** The percentage computed for [completed] habits out of [total] is the
    exact rounded one. *)
Definition exact_at (total completed : nat) : bool :=
  bool_decide
    (JS.Math_round
       (JS.mul (JS.div (JS.of_nat completed) (JS.of_nat total)) (JS.of_int 100))
     = JS.of_int ((200 * Z.of_nat completed + Z.of_nat total)
                  / (2 * Z.of_nat total))).

(** [exact_at] holds for every collection size below [bound] and every
    count of completed habits in it. *)
Definition exact_below (bound : nat) : bool :=
  forallb (fun total => forallb (exact_at total) (seq 0 (S total)))
          (seq 1 (bound - 1)).

(** The percentage computed for [completed] habits out of [total] is an
    integer from 0 to 100: the exact rounded one, or the one below it. *)
Definition close_at (total completed : nat) : bool :=
  let computed :=
    JS.Math_round
      (JS.mul (JS.div (JS.of_nat completed) (JS.of_nat total)) (JS.of_int 100)) in
  let exact :=
    ((200 * Z.of_nat completed + Z.of_nat total) / (2 * Z.of_nat total))%Z in
  bool_decide (computed = JS.of_int exact)
  || ((1 <=? exact)%Z && bool_decide (computed = JS.of_int (exact - 1))).

(** [close_at] holds for every collection size up to [bound] and every
    count of completed habits in it. *)
Definition close_upto (bound : nat) : bool :=
  forallb (fun total => forallb (close_at total) (seq 0 (S total)))
          (seq 1 bound).

(** ** Comparisons of numbers *)

Module JSCompare.

(** [x === y] on numbers: IEEE equality (NaN equals nothing, the two
    zeros are equal). *)
Definition strict_eq (x y : JS.number) : bool := SFeqb x y.

(** [x >= y]: false when either side is NaN. *)
Definition ge (x y : JS.number) : bool := SFleb y x.

End JSCompare.

(** ** Strings of the form fields *)

(** A JavaScript string is a sequence of UTF-16 code units. *)
Module JSString.

Definition t : Type := list N.

(** The code units [String.prototype.trim] strips: WhiteSpace (TAB, VT,
    FF, ZWNBSP and the space separators of Unicode) and LineTerminator
    (LF, CR, LS, PS); each is a single code unit. *)
Definition isWhiteSpace (c : N) : bool :=
  ((c =? 0x09) || (c =? 0x0B) || (c =? 0x0C) || (c =? 0xFEFF)
   || (c =? 0x20) || (c =? 0xA0) || (c =? 0x1680)
   || ((0x2000 <=? c) && (c <=? 0x200A))
   || (c =? 0x202F) || (c =? 0x205F) || (c =? 0x3000)
   || (c =? 0x0A) || (c =? 0x0D) || (c =? 0x2028) || (c =? 0x2029))%N.

Fixpoint trimStart (s : t) : t :=
  match s with
  | [] => []
  | c :: rest => if isWhiteSpace c then trimStart rest else s
  end.

Definition trimEnd (s : t) : t := rev (trimStart (rev s)).

(** [s.trim()] *)
Definition trim (s : t) : t := trimEnd (trimStart s).

(** A string is falsy exactly when it is empty. *)
Definition truthy (s : t) : bool :=
  match s with
  | [] => false
  | _ :: _ => true
  end.

(** [s || undefined] *)
Definition or_undefined (s : t) : option t :=
  if truthy s then Some s else None.

End JSString.

(** ** The pages and components that drive the store *)

(** [components/habits/HabitForm.tsx] *)
Module HabitForm.

(** The five pieces of form state [handleSubmit] reads. *)
Record fields : Type := mkFields {
  name : JSString.t;
  description : JSString.t;
  emoji : JSString.t;
  frequency : JSString.t;
  reminderTime : JSString.t
}.

(** The object handed to [onSubmit]. *)
Record submission : Type := mkSubmission {
  sub_name : JSString.t;
  sub_description : option JSString.t;
  sub_emoji : JSString.t;
  sub_frequency : JSString.t;
  sub_reminder_time : option JSString.t
}.

(** [handleSubmit]: [None] is the early return, [Some data] the call
    [onSubmit(data)]. *)
Definition handleSubmit (f : fields) : option submission :=
  if negb (JSString.truthy (JSString.trim (name f))) then None
  else
    Some {| sub_name := JSString.trim (name f);
            sub_description :=
              JSString.or_undefined (JSString.trim (description f));
            sub_emoji := emoji f;
            sub_frequency := frequency f;
            sub_reminder_time := JSString.or_undefined (reminderTime f) |}.

End HabitForm.

(** [components/habits/HabitCard.tsx] *)
Module HabitCard.

(** [handleComplete]: the guard, then [onComplete(habit.id)]. *)
Definition handleComplete
    (habit : Habit.t) (isCompleting : bool)
    (onComplete : Z -> HabitState.t -> HabitState.t)
  : HabitState.t -> HabitState.t :=
  if Habit.is_completed_today habit || isCompleting
  then fun state => state
  else onComplete (Habit.id habit).

End HabitCard.

(** [pages/Habits.tsx] *)
Module HabitsPage.

Definition activeHabits (habits : list Habit.t) : list Habit.t :=
  List.filter (fun h => Habit.is_active h) habits.

Definition archivedHabits (habits : list Habit.t) : list Habit.t :=
  List.filter (fun h => negb (Habit.is_active h)) habits.

(** [handleComplete(id)]: [habits] is the collection the render that
    built the handler read from the store, [resolved] tells whether
    [api.completeHabit(id)] resolved; on a rejection only a toast is
    shown. *)
Definition handleComplete (habits : list Habit.t) (resolved : bool) (id : Z)
  : HabitState.t -> HabitState.t :=
  if resolved
  then setHabits
         (map (fun h => if (Habit.id h =? id)%Z then completed h else h) habits)
  else fun state => state.

(** [handleCreate(data)]: [created] is the habit [api.createHabit(data)]
    resolved with, if it did. *)
Definition handleCreate (created : option Habit.t)
  : HabitState.t -> HabitState.t :=
  match created with
  | Some newHabit => addHabit newHabit
  | None => fun state => state
  end.

(** A click on the card the page rendered for [habit] when the store
    held the collection [rendered], with no completion of that card in
    flight: a card of the active tab is given [handleComplete], a card of
    the archive a function that does nothing.  The result acts on the
    state the store holds when the request is answered. *)
Definition clickCard
    (rendered : list Habit.t) (habit : Habit.t) (resolved : bool)
  : HabitState.t -> HabitState.t :=
  HabitCard.handleComplete habit false
    (if Habit.is_active habit
     then handleComplete rendered resolved
     else fun _ st => st).

End HabitsPage.

(** [pages/Dashboard.tsx] and [pages/AIAssistant.tsx] *)
Module Dashboard.

(** [handleCompleteHabit(id)], with [habits] and [resolved] as for
    [HabitsPage.handleComplete]. *)
Definition handleCompleteHabit
    (habits : list Habit.t) (resolved : bool) (id : Z)
  : HabitState.t -> HabitState.t :=
  if resolved
  then setHabits
         (map (fun h => if (Habit.id h =? id)%Z then completed h else h) habits)
  else fun state => state.

(** The condition under which the effect fires the confetti. *)
Definition confetti (state : HabitState.t) (showConfetti : bool) : bool :=
  let progress := getTodayProgress state in
  let totalHabits := length (HabitState.habits state) in
  JSCompare.strict_eq progress (JS.of_int 100)
  && (0 <? totalHabits)%nat
  && negb showConfetti.

(** The condition of the failure widget, and [hasFailures] of the
    assistant page. *)
Definition hasFailures (habits : list Habit.t) : bool :=
  existsb
    (fun h => (Habit.current_streak h =? 0)%Z
              && (0 <? Habit.total_completions h)%Z)
    habits.

(** A click on the card the dashboard rendered for [habit] when the store
    held the collection [rendered], with no completion of that card in
    flight.  The result acts on the state the store holds when the
    request is answered. *)
Definition clickCard
    (rendered : list Habit.t) (habit : Habit.t) (resolved : bool)
  : HabitState.t -> HabitState.t :=
  HabitCard.handleComplete habit false (handleCompleteHabit rendered resolved).

End Dashboard.

(** [App.tsx] *)
Module App.

(** How [Promise.all([api.getHabits(), api.getUserProfile()])] ended:
    resolved with the [habits] key of the first answer (which may be
    missing) and with the profile, or rejected. *)
Inductive outcome : Type :=
| Resolved (habits : option (list Habit.t)) (userData : User.t)
| Rejected.

(** [loadData()] *)
Definition loadData (result : outcome) (state : HabitState.t) : HabitState.t :=
  let loading := setLoading true state in
  let settled :=
    match result with
    | Resolved habits userData =>
        setUser userData (setHabits (default [] habits) loading)
    | Rejected =>
        setError (Some "Не удалось загрузить данные") loading
    end in
  setLoading false settled.

End App.

(** [components/habits/ProgressRing.tsx] *)
Module ProgressRing.

Definition getColor (progress : JS.number) : string :=
  if JSCompare.ge progress (JS.of_int 100) then "#22c55e"
  else if JSCompare.ge progress (JS.of_int 75) then "#3b82f6"
  else if JSCompare.ge progress (JS.of_int 50) then "#eab308"
  else if JSCompare.ge progress (JS.of_int 25) then "#f97316"
  else "#ef4444".

End ProgressRing.

(** ** Checks by evaluation *)

(** With every one of [total] habits completed the computed percentage
    is 100. *)
Definition full_at (total : nat) : bool :=
  bool_decide
    (JS.Math_round
       (JS.mul (JS.div (JS.of_nat total) (JS.of_nat total)) (JS.of_int 100))
     = JS.of_int 100).

Definition full_upto (bound : nat) : bool := forallb full_at (seq 1 bound).

(** The colour of the ring at the integer [k], by the thresholds. *)
Definition band (k : nat) : string :=
  if (100 <=? k)%nat then "#22c55e"
  else if (75 <=? k)%nat then "#3b82f6"
  else if (50 <=? k)%nat then "#eab308"
  else if (25 <=? k)%nat then "#f97316"
  else "#ef4444".

(** At the integer [k], [=== 100] holds only of 100 and the colour is
    the one of the band. *)
Definition integer_at (k : nat) : bool :=
  Bool.eqb (JSCompare.strict_eq (JS.of_nat k) (JS.of_int 100)) (k =? 100)%nat
  && bool_decide (ProgressRing.getColor (JS.of_nat k) = band k).

Definition integers_upto (bound : nat) : bool :=
  forallb integer_at (seq 0 (S bound)).

(** [JS.add z 1] is what the binary64 addition of the Standard Library
    gives on the binary64 values of [z] and 1. *)
Definition add_one_agrees (z : Z) : bool :=
  bool_decide
    (SFadd JS.prec JS.emax (JS.of_int z) (JS.of_int 1)
     = JS.of_int (JS.add z 1)).

(** Integers that binary64 holds: the small ones, those about 2^53, the
    even ones above 2^53, the multiples of four above 2^54, and the
    powers of two; each with its opposite. *)
Definition binary64_samples : list Z :=
  let small := map Z.of_nat (seq 0 300) in
  let about := map (fun i => 2 ^ 53 - 150 + Z.of_nat i)%Z (seq 0 151) in
  let evens := map (fun i => 2 ^ 53 + 2 * Z.of_nat i)%Z (seq 0 300) in
  let fours := map (fun i => 2 ^ 54 + 4 * Z.of_nat i)%Z (seq 0 100) in
  let powers := map (fun i => 2 ^ Z.of_nat i)%Z (seq 0 120) in
  let all := small ++ about ++ evens ++ fours ++ powers in
  all ++ map Z.opp all.

(** * Properties *)

(** ** The scenarios of the spec *)

Example scenario_empty_then_complete :
  let s0 := setHabits [Sample.habit 1 0 0 0 false] initialState in
  let s1 := completeHabit 1 s0 in
  getTodayProgress s0 = JS.of_int 0
  /\ getTodayProgress s1 = JS.of_int 100
  /\ (Habit.current_streak <$> HabitState.habits s1) = [1%Z]
  /\ (Habit.total_completions <$> HabitState.habits s1) = [1%Z].
Proof. vm_compute. repeat split; reflexivity. Qed.

Example scenario_one_of_two :
  let s := Sample.with_habits
             [Sample.habit 1 1 1 1 true; Sample.habit 2 0 0 0 false] in
  getCompletedToday s = 1%nat /\ getTodayProgress s = JS.of_int 50.
Proof. vm_compute. split; reflexivity. Qed.

Example exact_below_40 : exact_below 40 = true.
Proof. vm_compute. reflexivity. Qed.

Example not_exact_below_41 : exact_below 41 = false.
Proof. vm_compute. reflexivity. Qed.

(** ** What an action leaves of the state *)

Section Frame.

Variable state : HabitState.t.

(** A patch that names only [habits] leaves every other field alone. *)
Lemma assign_of_habits (hs : list Habit.t) :
  assign state (Patch.of_habits hs)
  = {| HabitState.habits := hs;
       HabitState.user := HabitState.user state;
       HabitState.weeklySummary := HabitState.weeklySummary state;
       HabitState.failureAnalysis := HabitState.failureAnalysis state;
       HabitState.weeklyProgress := HabitState.weeklyProgress state;
       HabitState.isLoading := HabitState.isLoading state;
       HabitState.error := HabitState.error state;
       HabitState.selectedHabitId := HabitState.selectedHabitId state |}.
Proof. reflexivity. Qed.

(** Writing back the collection the state already holds changes nothing. *)
Lemma assign_same_habits :
  assign state (Patch.of_habits (HabitState.habits state)) = state.
Proof. destruct state; reflexivity. Qed.

Lemma habits_updateHabit (id : Z) (updates : PartialHabit.t) :
  HabitState.habits (updateHabit id updates state)
  = map (fun h => if (Habit.id h =? id)%Z then spread h updates else h)
        (HabitState.habits state).
Proof. reflexivity. Qed.

Lemma habits_completeHabit (id : Z) :
  HabitState.habits (completeHabit id state)
  = map (fun h => if (Habit.id h =? id)%Z then completed h else h)
        (HabitState.habits state).
Proof. reflexivity. Qed.

Lemma habits_removeHabit (id : Z) :
  HabitState.habits (removeHabit id state)
  = List.filter (fun h => negb (Habit.id h =? id)%Z)
                (HabitState.habits state).
Proof. reflexivity. Qed.

Lemma habits_addHabit (habit : Habit.t) :
  HabitState.habits (addHabit habit state)
  = HabitState.habits state ++ [habit].
Proof. reflexivity. Qed.

End Frame.

(** ** Mapping and filtering on an identity no habit carries *)

Section Unmatched.

Variable id : Z.
Variable habits : list Habit.t.
Hypothesis unmatched : forall h, h ∈ habits -> Habit.id h <> id.

Lemma map_unmatched (f : Habit.t -> Habit.t) :
  map (fun h => if (Habit.id h =? id)%Z then f h else h) habits = habits.
Proof using unmatched.
  induction habits as [|h hs IH]; [reflexivity|].
  cbn [map]. rewrite IH.
  - destruct (Z.eqb_spec (Habit.id h) id) as [E|_]; [|reflexivity].
    exfalso. apply (unmatched h); [left | exact E].
  - intros h' Hin. apply unmatched. right. exact Hin.
Qed.

Lemma filter_unmatched :
  List.filter (fun h => negb (Habit.id h =? id)%Z) habits = habits.
Proof using unmatched.
  induction habits as [|h hs IH]; [reflexivity|].
  cbn [List.filter].
  destruct (Z.eqb_spec (Habit.id h) id) as [E|_]; cbn [negb].
  - exfalso. apply (unmatched h); [left | exact E].
  - rewrite IH; [reflexivity|].
    intros h' Hin. apply unmatched. right. exact Hin.
Qed.

End Unmatched.

(** ** Adding 1 in binary64 *)

(** An integer of magnitude at most 2^53 is a binary64 value. *)
Lemma round53_exact (z : Z) :
  (- 2 ^ 53 <= z <= 2 ^ 53)%Z -> JS.round53 z = z.
Proof.
  intros Hz.
  destruct (Z.eq_dec z (2 ^ 53)%Z) as [->|Hhi]; [reflexivity|].
  destruct (Z.eq_dec z (- 2 ^ 53)%Z) as [->|Hlo]; [reflexivity|].
  unfold JS.round53. cbv zeta.
  destruct (Z.eq_dec z 0%Z) as [->|Hz0]; [reflexivity|].
  assert (Hlog : (Z.log2 (Z.abs z) < 53)%Z).
  { apply Z.log2_lt_pow2; lia. }
  unfold JS.prec.
  destruct (Z.leb_spec (Z.log2 (Z.abs z) + 1 - 53) 0); [reflexivity | lia].
Qed.

(** Rounding to binary64 keeps a positive integer positive. *)
Lemma round53_pos (z : Z) : (1 <= z)%Z -> (1 <= JS.round53 z)%Z.
Proof.
  intros Hz. unfold JS.round53. cbv zeta.
  rewrite (Z.abs_eq z) by lia. rewrite (Z.sgn_pos z) by lia.
  set (k := (Z.log2 z + 1 - JS.prec)%Z).
  destruct (Z.leb_spec k 0) as [_|Hk]; [exact Hz|].
  assert (Hk' : (k <= Z.log2 z)%Z) by (unfold k, JS.prec; lia).
  assert (Hpow : (0 < 2 ^ k)%Z) by (apply Z.pow_pos_nonneg; lia).
  assert (Hq : (1 <= z / 2 ^ k)%Z).
  { apply Z.div_le_lower_bound; [exact Hpow|].
    rewrite Z.mul_1_r.
    transitivity (2 ^ Z.log2 z)%Z.
    - apply Z.pow_le_mono_r; lia.
    - apply Z.log2_spec. lia. }
  assert (Hq' : forall q', (z / 2 ^ k <= q')%Z -> (1 <= 1 * (q' * 2 ^ k))%Z).
  { intros q' Hle. nia. }
  repeat match goal with
         | |- context [if ?c then _ else _] => destruct c
         end; apply Hq'; lia.
Qed.

(** Up to 2^53 adding 1 is exact. *)
Lemma add_one_exact (z : Z) :
  (- 2 ^ 53 <= z <= 2 ^ 53 - 1)%Z -> JS.add z 1 = (z + 1)%Z.
Proof. intros Hz. unfold JS.add. apply round53_exact. lia. Qed.

(** Adding 1 to an integer that is not negative never gives 0. *)
Lemma add_one_pos (z : Z) : (0 <= z)%Z -> (1 <= JS.add z 1)%Z.
Proof. intros Hz. unfold JS.add. apply round53_pos. lia. Qed.

(** *** The addition of the Standard Library on the exact range *)

Section Binary64.

Local Open Scope Z_scope.

(** The number of binary digits is [Pos.size]. *)
Lemma digits2_size (p : positive) : digits2_pos p = Pos.size p.
Proof. induction p; cbn; congruence. Qed.

(** [n] zero bits appended are [n] more digits. *)
Lemma Zdigits_shift (w : positive) (n : nat) :
  Z.pos (digits2_pos (Nat.iter n xO w)) = Z.pos (digits2_pos w) + Z.of_nat n.
Proof.
  induction n as [|n IH]; [cbn; lia|].
  rewrite Nat.iter_succ. cbn [digits2_pos]. rewrite Pos2Z.inj_succ, IH. lia.
Qed.

Lemma pos_iter_nat (w : positive) (p : positive) :
  Pos.iter xO w p = Nat.iter (Pos.to_nat p) xO w.
Proof. apply Pos2Nat.inj_iter. Qed.

(** The iterations of the library, counted in [nat]. *)
Lemma iter_pos_nat {A} (f : A -> A) (p : positive) (x : A) :
  SpecFloat.iter_pos f p x = Nat.iter (Pos.to_nat p) f x.
Proof.
  revert x. induction p as [p IH|p IH|]; intros x; cbn [SpecFloat.iter_pos].
  - rewrite !IH, Pos2Nat.inj_xI.
    rewrite <- Nat.iter_add. replace (Pos.to_nat p + Pos.to_nat p)%nat with (2 * Pos.to_nat p)%nat by lia.
    symmetry. apply Nat.iter_succ_r.
  - rewrite !IH, Pos2Nat.inj_xO. rewrite <- Nat.iter_add. f_equal. lia.
  - reflexivity.
Qed.

(** Shifting out zero bits is exact: no round bit, no sticky bit. *)
Lemma shr_exact (w : positive) (n j : nat) :
  Nat.iter n shr_1 {| shr_m := Z.pos (Nat.iter (n + j) xO w); shr_r := false; shr_s := false |}
  = {| shr_m := Z.pos (Nat.iter j xO w); shr_r := false; shr_s := false |}.
Proof.
  induction n as [|n IH]; [reflexivity|].
  rewrite Nat.iter_succ_r. cbn [Nat.add]. rewrite Nat.iter_succ.
  cbn [shr_1 orb]. exact IH.
Qed.

(** A significand of 53 digits is kept as it is. *)
Lemma round_canonical (s : bool) (m : positive) (e : Z) :
  Z.pos (digits2_pos m) = 53 -> -1074 <= e <= 971 ->
  binary_round_aux JS.prec JS.emax s (Z.pos m) e loc_Exact = S754_finite s m e.
Proof.
  intros Hd He. unfold binary_round_aux, shr_fexp, Zdigits2, fexp, emin, JS.prec, JS.emax.
  cbn [shr_record_of_loc]. rewrite Hd.
  replace (Z.max (53 + e - 53) (3 - 1024 - 53) - e) with 0 by lia.
  cbn [shr shr_m loc_of_shr_record round_nearest_even shr_record_of_loc Zdigits2].
  rewrite Hd.
  replace (Z.max (53 + e - 53) (3 - 1024 - 53) - e) with 0 by lia.
  cbn [shr shr_m].
  destruct (Z.leb_spec e (1024 - 53)); [reflexivity | lia].
Qed.

Lemma iter_xO_value (w : positive) (n : nat) :
  Z.pos (Nat.iter n xO w) = Z.pos w * 2 ^ Z.of_nat n.
Proof.
  induction n as [|n IH]; [cbn; lia|].
  rewrite Nat.iter_succ, Pos2Z.inj_xO, IH, Nat2Z.inj_succ, Z.pow_succ_r by lia.
  ring.
Qed.

Lemma shr_exact0 (m : positive) (n : nat) :
  Nat.iter n shr_1 {| shr_m := Z.pos (Nat.iter n xO m); shr_r := false; shr_s := false |}
  = {| shr_m := Z.pos m; shr_r := false; shr_s := false |}.
Proof. pose proof (shr_exact m n 0) as H. rewrite Nat.add_0_r in H. exact H. Qed.

(** A significand of 53 digits followed by [n] zero bits is normalised
    by dropping them. *)
Lemma round_trailing_zeros (s : bool) (m : positive) (e : Z) (n : nat) :
  Z.pos (digits2_pos m) = 53 -> -1074 <= e <= 971 ->
  binary_round_aux JS.prec JS.emax s (Z.pos (Nat.iter n xO m)) (e - Z.of_nat n) loc_Exact
  = S754_finite s m e.
Proof.
  intros Hd He. destruct n as [|n].
  { cbn [Nat.iter Z.of_nat]. rewrite Z.sub_0_r. apply round_canonical; assumption. }
  unfold binary_round_aux, shr_fexp, Zdigits2, fexp, emin, JS.prec, JS.emax.
  cbn [shr_record_of_loc]. rewrite Zdigits_shift, Hd.
  replace (Z.max (53 + Z.of_nat (S n) + (e - Z.of_nat (S n)) - 53) (3 - 1024 - 53)
           - (e - Z.of_nat (S n))) with (Z.pos (Pos.of_succ_nat n)) by lia.
  cbn [shr]. rewrite iter_pos_nat, SuccNat2Pos.id_succ.
  rewrite shr_exact0.
  cbn [shr_m loc_of_shr_record round_nearest_even shr_record_of_loc Zdigits2].
  rewrite Hd.
  replace (e - Z.of_nat (S n) + Z.pos (Pos.of_succ_nat n)) with e by lia.
  replace (Z.max (53 + e - 53) (3 - 1024 - 53) - e) with 0 by lia.
  cbn [shr shr_m].
  destruct (Z.leb_spec e (1024 - 53)); [reflexivity | lia].
Qed.

(** The binary64 value of a positive integer of at most 53 digits: its
    digits, shifted up to 53. *)
Lemma of_int_pos (w : positive) :
  Z.pos (digits2_pos w) <= 53 ->
  JS.of_int (Z.pos w)
  = S754_finite false (Nat.iter (Z.to_nat (53 - Z.pos (digits2_pos w))) xO w)
                (Z.pos (digits2_pos w) - 53).
Proof.
  intros HD. set (D := Z.pos (digits2_pos w)) in *.
  assert (HD1 : 1 <= D) by (unfold D; lia).
  unfold JS.of_int, binary_normalize, binary_round, shl_align, fexp, emin, JS.prec, JS.emax.
  fold D.
  replace (Z.max (D + 0 - 53) (3 - 1024 - 53) - 0) with (D - 53) by lia.
  replace (Z.max (D + 0 - 53) (3 - 1024 - 53)) with (D - 53) by lia.
  destruct (D - 53) as [|q|q] eqn:E; [|lia|].
  - replace (53 - D) with 0 by lia. cbn [Z.to_nat Nat.iter].
    apply round_canonical; [rewrite Zdigits_shift; unfold D in *; lia | lia].
  - rewrite pos_iter_nat.
    replace (Z.to_nat (53 - D)) with (Pos.to_nat q) by lia.
    apply round_canonical; [|lia].
    rewrite Zdigits_shift. unfold D in *. lia.
Qed.

(** The same integer scaled by 2^52 at exponent -52 normalises to the
    same value. *)
Lemma round_scaled (w : positive) :
  Z.pos (digits2_pos w) <= 53 ->
  binary_round JS.prec JS.emax false (Nat.iter 52 xO w) (-52) = JS.of_int (Z.pos w).
Proof.
  intros HD. rewrite (of_int_pos w HD).
  set (D := Z.pos (digits2_pos w)) in *.
  assert (HD1 : 1 <= D) by (unfold D; lia).
  unfold binary_round, shl_align, fexp, emin, JS.prec, JS.emax.
  rewrite Zdigits_shift. fold D.
  replace (Z.max (D + Z.of_nat 52 + -52 - 53) (3 - 1024 - 53) - -52)
    with (D - 1) by lia.
  assert (Hshape : match D - 1 with
                   | Z.neg d => (Pos.iter xO (Nat.iter 52 xO w) d,
                                 Z.max (D + Z.of_nat 52 + -52 - 53) (3 - 1024 - 53))
                   | _ => (Nat.iter 52 xO w, -52)
                   end = (Nat.iter 52 xO w, -52)).
  { destruct (D - 1) eqn:E; [reflexivity | reflexivity | lia]. }
  rewrite Hshape.
  replace (Nat.iter 52 xO w)
    with (Nat.iter (Z.to_nat (D - 1)) xO (Nat.iter (Z.to_nat (53 - D)) xO w)).
  2:{ rewrite <- Nat.iter_add. f_equal. lia. }
  replace (-52) with ((D - 53) - Z.of_nat (Z.to_nat (D - 1))) by lia.
  apply round_trailing_zeros; [|lia].
  rewrite Zdigits_shift. fold D. lia.
Qed.

(** From 0 to 2^53 - 2 the binary64 sum of [z] and 1, as the Standard
    Library defines it, is the binary64 value of [z + 1]. *)
Lemma add_one_binary64 (z : Z) :
  0 <= z < 2 ^ 53 - 1 ->
  SFadd JS.prec JS.emax (JS.of_int z) (JS.of_int 1) = JS.of_int (z + 1).
Proof.
  intros Hz. destruct z as [|w|w]; [reflexivity| |lia].
  assert (Hsize : forall p : positive, Z.pos p < 2 ^ 53 -> Z.pos (digits2_pos p) <= 53).
  { intros p Hp. rewrite digits2_size.
    pose proof (Pos.size_le p) as Hle.
    destruct (Z.le_gt_cases (Z.pos (Pos.size p)) 53) as [H|H]; [exact H|].
    exfalso.
    assert (2 ^ 54 <= 2 ^ Z.pos (Pos.size p)) by (apply Z.pow_le_mono_r; lia).
    assert (Z.pos (2 ^ Pos.size p) <= Z.pos p~0) by (apply Pos2Z.pos_le_pos; exact Hle).
    rewrite Pos2Z.inj_pow in *. lia. }
  pose proof (Hsize w ltac:(lia)) as HD.
  assert (HD' : Z.pos (digits2_pos (w + 1)) <= 53) by (apply Hsize; lia).
  replace (Z.pos w + 1) with (Z.pos (w + 1)) by lia.
  rewrite <- (round_scaled (w + 1) HD').
  rewrite (of_int_pos w HD).
  set (D := Z.pos (digits2_pos w)) in *.
  assert (HD1 : 1 <= D) by (unfold D; lia).
  change (JS.of_int 1) with (S754_finite false 4503599627370496 (-52)).
  unfold SFadd, shl_align, cond_Zopp.
  replace (Z.min (D - 53) (-52)) with (-52) by lia.
  replace (-52 - (D - 53)) with (1 - D) by lia.
  change (-52 - -52) with 0.
  cbn [fst].
  assert (Hfst : fst match 1 - D with
                     | Z.neg d => (Pos.iter xO (Nat.iter (Z.to_nat (53 - D)) xO w) d, -52)
                     | _ => (Nat.iter (Z.to_nat (53 - D)) xO w, D - 53)
                     end = Nat.iter 52 xO w).
  { destruct (1 - D) as [|q|q] eqn:E; [|lia|].
    - cbn [fst]. f_equal. lia.
    - cbn [fst]. rewrite pos_iter_nat, <- Nat.iter_add. f_equal. lia. }
  rewrite Hfst.
  replace (Z.pos (Nat.iter 52 xO w) + 4503599627370496)
    with (Z.pos (Nat.iter 52 xO (w + 1)%positive)).
  2:{ rewrite !iter_xO_value. change (2 ^ Z.of_nat 52) with 4503599627370496. lia. }
  reflexivity.
Qed.

(** On that range [JS.add z 1] is the binary64 sum. *)
Lemma add_one_is_binary64_sum (z : Z) :
  0 <= z < 2 ^ 53 - 1 ->
  SFadd JS.prec JS.emax (JS.of_int z) (JS.of_int 1) = JS.of_int (JS.add z 1).
Proof.
  intros Hz. rewrite add_one_exact by lia. apply add_one_binary64. exact Hz.
Qed.

End Binary64.

(** On every sample the rounded sum is the one of the binary64 addition
    of the Standard Library. *)
Example add_one_is_binary64 :
  forallb add_one_agrees binary64_samples = true.
Proof. vm_compute. reflexivity. Qed.

(** At 2^53 adding 1 changes nothing, and at 2^53 + 2 it adds 2. *)
Example add_one_beyond_2_53 :
  JS.add (2 ^ 53) 1 = (2 ^ 53)%Z /\ JS.add (2 ^ 53 + 2) 1 = (2 ^ 53 + 4)%Z.
Proof. split; reflexivity. Qed.

(** The habit [completeHabit] writes for a habit [h]. *)
Lemma completed_fields (h : Habit.t) :
  Habit.is_completed_today (completed h) = true
  /\ Habit.total_completions (completed h)
     = JS.add (Habit.total_completions h) 1
  /\ Habit.current_streak (completed h) = JS.add (Habit.current_streak h) 1
  /\ Habit.id (completed h) = Habit.id h.
Proof. repeat split. Qed.

(** C1 as stated fails: a counter of 2^53 is a binary64 value, and the
    sum of it and 1 rounds back to 2^53, so [completeHabit] leaves the
    [total_completions] of such a habit as it was instead of adding 1. *)
Lemma completeHabit_stalls_at_2_53 :
  ~ (forall (s : HabitState.t) (id : Z) (i : nat) (h : Habit.t),
        HabitState.habits s !! i = Some h -> Habit.id h = id ->
        exists h1 : Habit.t,
          HabitState.habits (completeHabit id s) !! i = Some h1
          /\ Habit.total_completions h1 = (Habit.total_completions h + 1)%Z).
Proof.
  intros H.
  destruct (H (Sample.with_habits [Sample.habit 1 0 0 (2 ^ 53) false])
              1%Z 0%nat (Sample.habit 1 0 0 (2 ^ 53) false)
              eq_refl eq_refl) as (h1 & Hlook & Htotal).
  vm_compute in Hlook. injection Hlook as <-.
  vm_compute in Htotal. discriminate.
Qed.

(** C1, amended. [completeHabit(id)] sets [is_completed_today] of a habit
    that carries [id], whatever its flag was, and adds one to its
    [total_completions] and to its [current_streak] where the counter is
    from -2^53 to 2^53 - 1, the range on which binary64 adds 1 exactly; a
    second call sets the flag and adds one to each again where the
    counter is at most 2^53 - 2; when no habit carries [id] the state is
    left as it was. *)
Theorem completeHabit_increments (s : HabitState.t) (id : Z) :
  (forall (i : nat) (h : Habit.t),
      HabitState.habits s !! i = Some h -> Habit.id h = id ->
      exists h1 h2 : Habit.t,
        HabitState.habits (completeHabit id s) !! i = Some h1
        /\ Habit.is_completed_today h1 = true
        /\ ((- 2 ^ 53 <= Habit.total_completions h <= 2 ^ 53 - 1)%Z ->
            Habit.total_completions h1 = (Habit.total_completions h + 1)%Z)
        /\ ((- 2 ^ 53 <= Habit.current_streak h <= 2 ^ 53 - 1)%Z ->
            Habit.current_streak h1 = (Habit.current_streak h + 1)%Z)
        /\ HabitState.habits (completeHabit id (completeHabit id s)) !! i
           = Some h2
        /\ Habit.is_completed_today h2 = true
        /\ ((- 2 ^ 53 <= Habit.total_completions h <= 2 ^ 53 - 2)%Z ->
            Habit.total_completions h2 = (Habit.total_completions h + 2)%Z)
        /\ ((- 2 ^ 53 <= Habit.current_streak h <= 2 ^ 53 - 2)%Z ->
            Habit.current_streak h2 = (Habit.current_streak h + 2)%Z))
  /\ ((forall h, h ∈ HabitState.habits s -> Habit.id h <> id) ->
      completeHabit id s = s).
Proof.
  split.
  - intros i h Hi Hid.
    exists (completed h), (completed (completed h)).
    assert (H1 : HabitState.habits (completeHabit id s) !! i
                 = Some (completed h)).
    { rewrite habits_completeHabit, list_lookup_fmap, Hi. cbn.
      apply Z.eqb_eq in Hid. rewrite Hid. reflexivity. }
    assert (H2 : HabitState.habits (completeHabit id (completeHabit id s)) !! i
                 = Some (completed (completed h))).
    { rewrite habits_completeHabit, list_lookup_fmap, H1. cbn.
      apply Z.eqb_eq in Hid. rewrite Hid. reflexivity. }
    split; [exact H1|]. split; [reflexivity|].
    split; [intros Hr; cbn; apply add_one_exact; exact Hr|].
    split; [intros Hr; cbn; apply add_one_exact; exact Hr|].
    split; [exact H2|]. split; [reflexivity|].
    split; intros Hr; cbn.
    + rewrite (add_one_exact (Habit.total_completions h)) by lia.
      rewrite add_one_exact by lia. lia.
    + rewrite (add_one_exact (Habit.current_streak h)) by lia.
      rewrite add_one_exact by lia. lia.
  - intros Hno. unfold completeHabit, set.
    rewrite (map_unmatched id _ Hno). apply assign_same_habits.
Qed.

(** C1 amended, at the second of three habits, one already completed
    today and with both counters at 0. *)
Lemma completeHabit_increments_witness :
  exists h1 h2 : Habit.t,
    HabitState.habits (completeHabit 2 Sample.three) !! 1%nat = Some h1
    /\ Habit.is_completed_today h1 = true
    /\ Habit.total_completions h1 = 1%Z
    /\ Habit.current_streak h1 = 1%Z
    /\ HabitState.habits (completeHabit 2 (completeHabit 2 Sample.three))
         !! 1%nat = Some h2
    /\ Habit.is_completed_today h2 = true
    /\ Habit.total_completions h2 = 2%Z
    /\ Habit.current_streak h2 = 2%Z.
Proof.
  destruct (proj1 (completeHabit_increments Sample.three 2) 1%nat
                  (Sample.habit 2 0 0 0 true) eq_refl eq_refl)
    as (h1 & h2 & L1 & F1 & T1 & C1 & L2 & F2 & T2 & C2).
  exists h1, h2.
  repeat split; try assumption;
    first [apply T1 | apply C1 | apply T2 | apply C2]; cbn; lia.
Defined.

(** C5. On an identity no habit carries, [updateHabit] and [removeHabit]
    return the state they were given; an action has no other result (it
    cannot fail), so nothing tells this call from one that found a habit. *)
Theorem unmatched_id_is_silent_noop
    (s : HabitState.t) (id : Z) (updates : PartialHabit.t) :
  (forall h, h ∈ HabitState.habits s -> Habit.id h <> id) ->
  updateHabit id updates s = s /\ removeHabit id s = s.
Proof.
  intros Hno. split.
  - unfold updateHabit, set.
    rewrite (map_unmatched id _ Hno). apply assign_same_habits.
  - unfold removeHabit, set.
    rewrite (filter_unmatched id _ Hno). apply assign_same_habits.
Qed.

(** No sample habit among the three carries the identity 9. *)
Lemma three_has_no_9 :
  forall h, h ∈ HabitState.habits Sample.three -> Habit.id h <> 9%Z.
Proof.
  intros h Hin. cbn in Hin.
  repeat (apply elem_of_cons in Hin; destruct Hin as [->|Hin]; [discriminate|]).
  apply elem_of_nil in Hin. destruct Hin.
Defined.

(** C5 at three habits and the identity 9. *)
Lemma unmatched_id_is_silent_noop_witness :
  updateHabit 9 (Sample.rename "Run") Sample.three = Sample.three
  /\ removeHabit 9 Sample.three = Sample.three.
Proof.
  exact (unmatched_id_is_silent_noop Sample.three 9 (Sample.rename "Run")
                                     three_has_no_9).
Defined.

(** C8. [setHabits(list)] makes [list], whatever it holds, the habit
    collection, and leaves the seven other fields as they were. *)
Theorem setHabits_replaces_only_habits
    (s : HabitState.t) (list : list Habit.t) :
  HabitState.habits (setHabits list s) = list
  /\ HabitState.user (setHabits list s) = HabitState.user s
  /\ HabitState.weeklySummary (setHabits list s) = HabitState.weeklySummary s
  /\ HabitState.failureAnalysis (setHabits list s)
     = HabitState.failureAnalysis s
  /\ HabitState.weeklyProgress (setHabits list s) = HabitState.weeklyProgress s
  /\ HabitState.isLoading (setHabits list s) = HabitState.isLoading s
  /\ HabitState.error (setHabits list s) = HabitState.error s
  /\ HabitState.selectedHabitId (setHabits list s)
     = HabitState.selectedHabitId s.
Proof.
  unfold setHabits, set. rewrite assign_of_habits. repeat split.
Qed.

(** C10. [updateHabit] with updates that carry no [id] key, and
    [completeHabit], keep the length of the collection and the identity
    at every position. *)
Theorem ids_and_length_preserved
    (s : HabitState.t) (id : Z) (updates : PartialHabit.t) :
  PartialHabit.id updates = None ->
  (length (HabitState.habits (updateHabit id updates s))
   = length (HabitState.habits s)
   /\ forall i : nat,
       Habit.id <$> (HabitState.habits (updateHabit id updates s) !! i)
       = Habit.id <$> (HabitState.habits s !! i))
  /\ (length (HabitState.habits (completeHabit id s))
      = length (HabitState.habits s)
      /\ forall i : nat,
          Habit.id <$> (HabitState.habits (completeHabit id s) !! i)
          = Habit.id <$> (HabitState.habits s !! i)).
Proof.
  intros Hkey. split; split.
  - rewrite habits_updateHabit. apply length_map.
  - intros i. rewrite habits_updateHabit, list_lookup_fmap.
    destruct (HabitState.habits s !! i) as [h|]; [|reflexivity].
    cbn. destruct (Habit.id h =? id)%Z; [|reflexivity].
    cbn. rewrite Hkey. reflexivity.
  - rewrite habits_completeHabit. apply length_map.
  - intros i. rewrite habits_completeHabit, list_lookup_fmap.
    destruct (HabitState.habits s !! i) as [h|]; [|reflexivity].
    cbn. destruct (Habit.id h =? id)%Z; reflexivity.
Qed.

(** C10 at three habits, renaming and completing the one with identity 2. *)
Lemma ids_and_length_preserved_witness :
  (length (HabitState.habits (updateHabit 2 (Sample.rename "Run") Sample.three))
   = 3%nat
   /\ forall i : nat,
       Habit.id
         <$> (HabitState.habits
                (updateHabit 2 (Sample.rename "Run") Sample.three) !! i)
       = Habit.id <$> (HabitState.habits Sample.three !! i))
  /\ (length (HabitState.habits (completeHabit 2 Sample.three)) = 3%nat
      /\ forall i : nat,
          Habit.id <$> (HabitState.habits (completeHabit 2 Sample.three) !! i)
          = Habit.id <$> (HabitState.habits Sample.three !! i)).
Proof.
  exact (ids_and_length_preserved Sample.three 2 (Sample.rename "Run") eq_refl).
Defined.

(** An [id] key in the updates does change the identity. *)
Example updateHabit_can_renumber :
  Habit.id
    <$> HabitState.habits
          (updateHabit 2
             {| PartialHabit.id := Some 7%Z;
                PartialHabit.name := None;
                PartialHabit.description := None;
                PartialHabit.emoji := None;
                PartialHabit.reminder_time := None;
                PartialHabit.frequency := None;
                PartialHabit.target_days := None;
                PartialHabit.is_active := None;
                PartialHabit.current_streak := None;
                PartialHabit.best_streak := None;
                PartialHabit.total_completions := None;
                PartialHabit.progress_percentage := None;
                PartialHabit.is_completed_today := None;
                PartialHabit.created_at := None |}
             Sample.three)
  = [1%Z; 7%Z; 3%Z].
Proof. reflexivity. Qed.

(** C9. [completeHabit(id)] leaves [best_streak] of a habit that carries
    [id], and every field but [is_completed_today], [total_completions]
    and [current_streak], as it was; so a habit whose streak was at its
    best (and within the range on which binary64 adds 1 exactly) ends with
    [current_streak] above [best_streak], and there are such habits. *)
Theorem completeHabit_keeps_best_streak :
  (forall (s : HabitState.t) (id : Z) (i : nat) (h : Habit.t),
      HabitState.habits s !! i = Some h -> Habit.id h = id ->
      exists h' : Habit.t,
        HabitState.habits (completeHabit id s) !! i = Some h'
        /\ Habit.best_streak h' = Habit.best_streak h
        /\ Habit.id h' = Habit.id h
        /\ Habit.name h' = Habit.name h
        /\ Habit.description h' = Habit.description h
        /\ Habit.emoji h' = Habit.emoji h
        /\ Habit.reminder_time h' = Habit.reminder_time h
        /\ Habit.frequency h' = Habit.frequency h
        /\ Habit.target_days h' = Habit.target_days h
        /\ Habit.is_active h' = Habit.is_active h
        /\ Habit.progress_percentage h' = Habit.progress_percentage h
        /\ Habit.created_at h' = Habit.created_at h)
  /\ (forall (s : HabitState.t) (id : Z) (i : nat) (h : Habit.t),
        HabitState.habits s !! i = Some h -> Habit.id h = id ->
        (- 2 ^ 53 <= Habit.current_streak h <= 2 ^ 53 - 1)%Z ->
        Habit.current_streak h = Habit.best_streak h ->
        exists h' : Habit.t,
          HabitState.habits (completeHabit id s) !! i = Some h'
          /\ (Habit.best_streak h' < Habit.current_streak h')%Z)
  /\ (exists (s : HabitState.t) (id : Z) (h' : Habit.t),
        h' ∈ HabitState.habits (completeHabit id s)
        /\ (Habit.best_streak h' < Habit.current_streak h')%Z).
Proof.
  split; [|split].
  - intros s id i h Hi Hid. exists (completed h). split.
    + rewrite habits_completeHabit, list_lookup_fmap, Hi. cbn.
      apply Z.eqb_eq in Hid. rewrite Hid. reflexivity.
    + repeat split.
  - intros s id i h Hi Hid Hrange Hbest. exists (completed h). split.
    + rewrite habits_completeHabit, list_lookup_fmap, Hi. cbn.
      apply Z.eqb_eq in Hid. rewrite Hid. reflexivity.
    + cbn. rewrite add_one_exact by exact Hrange. lia.
  - exists (Sample.with_habits [Sample.habit 1 4 4 9 false]), 1%Z,
      (completed (Sample.habit 1 4 4 9 false)).
    split; [left | vm_compute; reflexivity].
Qed.

(** C9 at a habit whose streak of 4 is its best: afterwards the streak
    is 5 and the best is still 4. *)
Lemma completeHabit_keeps_best_streak_witness :
  exists h' : Habit.t,
    HabitState.habits
      (completeHabit 1 (Sample.with_habits [Sample.habit 1 4 4 9 false]))
      !! 0%nat = Some h'
    /\ (Habit.best_streak h' < Habit.current_streak h')%Z.
Proof.
  apply (proj1 (proj2 completeHabit_keeps_best_streak)
               (Sample.with_habits [Sample.habit 1 4 4 9 false]) 1%Z 0%nat
               (Sample.habit 1 4 4 9 false) eq_refl eq_refl).
  - cbn. lia.
  - reflexivity.
Defined.

(** ** [Math.min] and [Math.max] over a list that is not empty *)

Lemma Math_min_cons (x : Z) (xs : list Z) :
  exists m : Z, JS.Math_min (x :: xs) = JS.Int m /\ is_minimum m (x :: xs).
Proof.
  revert x. induction xs as [|y ys IH]; intros x.
  - exists x. split; [reflexivity|]. split; [left|].
    intros z Hz. apply list_elem_of_singleton in Hz. lia.
  - destruct (IH y) as (m & Hm & Hin & Hle).
    exists (Z.min x m). split.
    + change (JS.Math_min (x :: y :: ys))
        with (JS.min2 (JS.Int x) (JS.Math_min (y :: ys))).
      rewrite Hm. reflexivity.
    + split.
      * destruct (Z.min_spec x m) as [[_ ->]|[_ ->]]; [left | right; exact Hin].
      * intros z Hz. apply elem_of_cons in Hz. destruct Hz as [->|Hz].
        -- apply Z.le_min_l.
        -- specialize (Hle z Hz). lia.
Qed.

Lemma Math_max_cons (x : Z) (xs : list Z) :
  exists m : Z, JS.Math_max (x :: xs) = JS.Int m /\ is_maximum m (x :: xs).
Proof.
  revert x. induction xs as [|y ys IH]; intros x.
  - exists x. split; [reflexivity|]. split; [left|].
    intros z Hz. apply list_elem_of_singleton in Hz. lia.
  - destruct (IH y) as (m & Hm & Hin & Hle).
    exists (Z.max x m). split.
    + change (JS.Math_max (x :: y :: ys))
        with (JS.max2 (JS.Int x) (JS.Math_max (y :: ys))).
      rewrite Hm. reflexivity.
    + split.
      * destruct (Z.max_spec x m) as [[_ ->]|[_ ->]]; [right; exact Hin | left].
      * intros z Hz. apply elem_of_cons in Hz. destruct Hz as [->|Hz].
        -- apply Z.le_max_l.
        -- specialize (Hle z Hz). lia.
Qed.

(** C3. [getStreakData()] is the pair of the least [current_streak] and
    the greatest [best_streak] over the habits, and the pair (0, 0) for
    the empty collection. *)
Theorem getStreakData_min_max (s : HabitState.t) :
  (HabitState.habits s = [] ->
   getStreakData s
   = {| StreakData.current := JS.Int 0; StreakData.best := JS.Int 0 |})
  /\ (HabitState.habits s <> [] ->
      exists m M : Z,
        getStreakData s
        = {| StreakData.current := JS.Int m; StreakData.best := JS.Int M |}
        /\ is_minimum m (Habit.current_streak <$> HabitState.habits s)
        /\ is_maximum M (Habit.best_streak <$> HabitState.habits s)).
Proof.
  unfold getStreakData. split.
  - intros ->. reflexivity.
  - intros Hne. destruct (HabitState.habits s) as [|h hs]; [contradiction|].
    destruct (Math_min_cons (Habit.current_streak h)
                            (Habit.current_streak <$> hs)) as (m & Em & Hm).
    destruct (Math_max_cons (Habit.best_streak h)
                            (Habit.best_streak <$> hs)) as (M & EM & HM).
    exists m, M. cbn [length Nat.ltb Nat.leb map fmap list_fmap] in *.
    split; [|split; assumption].
    f_equal; assumption.
Qed.

(** C3 at three habits with streaks 3, 0, 7 and best streaks 5, 0, 9. *)
Lemma getStreakData_min_max_witness :
  exists m M : Z,
    getStreakData Sample.three
    = {| StreakData.current := JS.Int m; StreakData.best := JS.Int M |}
    /\ is_minimum m [3; 0; 7]%Z
    /\ is_maximum M [5; 0; 9]%Z.
Proof.
  refine (proj2 (getStreakData_min_max Sample.three) _). discriminate.
Defined.

Example getStreakData_three :
  getStreakData Sample.three
  = {| StreakData.current := JS.Int 0; StreakData.best := JS.Int 9 |}.
Proof. reflexivity. Qed.

(** ** Persisting and reloading *)

(** The slot read back after a write is the snapshot written. *)
Lemma lookup_setItem (state : HabitState.t) (storage : gmap string Persist.slot) :
  Persist.setItem state storage !! Persist.name
  = Some (Persist.Snapshot (Persist.partialize state)).
Proof. unfold Persist.setItem. apply lookup_insert_eq. Qed.

(** C4. A store reloaded from the slot a state was persisted to holds
    that state's [user] and [habits]; its six other fields are the
    defaults, since the slot holds the snapshot of [partialize] alone. *)
Theorem persist_then_reload
    (s : HabitState.t) (storage : gmap string Persist.slot) :
  Persist.setItem s storage !! Persist.name
  = Some (Persist.Snapshot
            {| Persist.user := HabitState.user s;
               Persist.habits := HabitState.habits s |})
  /\ Persist.rehydrate (Persist.setItem s storage)
     = {| HabitState.habits := HabitState.habits s;
          HabitState.user := HabitState.user s;
          HabitState.weeklySummary := None;
          HabitState.failureAnalysis := None;
          HabitState.weeklyProgress := None;
          HabitState.isLoading := false;
          HabitState.error := None;
          HabitState.selectedHabitId := None |}.
Proof.
  split; [apply lookup_setItem|].
  unfold Persist.rehydrate. rewrite lookup_setItem. reflexivity.
Qed.

(** With no slot, or a malformed one, the store starts from the initial
    state. *)
Lemma rehydrate_without_snapshot (storage : gmap string Persist.slot) :
  storage !! Persist.name = None
  \/ storage !! Persist.name = Some Persist.Malformed ->
  Persist.rehydrate storage = initialState.
Proof. unfold Persist.rehydrate. intros [-> | ->]; reflexivity. Qed.

Example reload_drops_session_fields :
  let s := setUser Sample.user Sample.three in
  let reloaded := Persist.rehydrate (Persist.setItem s ∅) in
  HabitState.user reloaded = Some Sample.user
  /\ HabitState.habits reloaded = HabitState.habits Sample.three
  /\ HabitState.isLoading s = true
  /\ HabitState.isLoading reloaded = false
  /\ HabitState.error s = Some "offline"
  /\ HabitState.error reloaded = None
  /\ HabitState.selectedHabitId s = Some 2%Z
  /\ HabitState.selectedHabitId reloaded = None.
Proof. repeat split. Qed.

(** ** Collections in which an identity occurs more than once *)

Lemma matching_nil_unmatched (id : Z) (habits : list Habit.t) :
  matching id habits = [] -> forall h, h ∈ habits -> Habit.id h <> id.
Proof.
  induction habits as [|h0 hs IH]; intros Hm h Hin.
  - apply elem_of_nil in Hin. destruct Hin.
  - unfold matching in Hm. cbn [List.filter] in Hm.
    destruct (Z.eqb_spec (Habit.id h0) id) as [_|Hne]; [discriminate|].
    apply elem_of_cons in Hin. destruct Hin as [->|Hin]; [exact Hne|].
    apply IH; assumption.
Qed.

(** With at most one habit carrying [id], a map that rewrites the habits
    carrying [id] changes at most one position. *)
Lemma map_single_match (id : Z) (f : Habit.t -> Habit.t) (habits : list Habit.t) :
  (length (matching id habits) <= 1)%nat ->
  exists k : nat, forall i : nat, i <> k ->
    map (fun h => if (Habit.id h =? id)%Z then f h else h) habits !! i
    = habits !! i.
Proof.
  induction habits as [|h hs IH]; intros Hlen.
  - exists 0%nat. reflexivity.
  - unfold matching in Hlen. cbn [List.filter] in Hlen.
    destruct (Z.eqb_spec (Habit.id h) id) as [E|Hne].
    + exists 0%nat. intros [|j] Hj; [contradiction|].
      cbn [map]. rewrite !lookup_cons_ne_0 by discriminate.
      rewrite map_unmatched; [reflexivity|].
      apply matching_nil_unmatched. apply length_zero_iff_nil.
      cbn [length] in Hlen. unfold matching. lia.
    + destruct (IH Hlen) as [k Hk]. exists (S k). intros [|j] Hj.
      * cbn [map]. apply Z.eqb_neq in Hne. rewrite Hne. reflexivity.
      * cbn [map]. rewrite !lookup_cons_ne_0 by discriminate.
        cbn [Nat.pred]. apply Hk. lia.
Qed.

(** C6 as stated fails: "every habit other than that single matching
    habit is unaffected" would leave at most one position of the
    collection changed, and two habits that share an identity are both
    rewritten. *)
Lemma updateHabit_rewrites_both_twins :
  ~ (forall (s : HabitState.t) (id : Z) (updates : PartialHabit.t),
        exists k : nat, forall i : nat, i <> k ->
          HabitState.habits (updateHabit id updates s) !! i
          = HabitState.habits s !! i).
Proof.
  intros H. destruct (H Sample.twins 1%Z (Sample.rename "Run")) as [k Hk].
  destruct k as [|k].
  - specialize (Hk 1%nat ltac:(discriminate)). vm_compute in Hk. discriminate.
  - specialize (Hk 0%nat ltac:(discriminate)). vm_compute in Hk. discriminate.
Qed.

(** C6, amended. [updateHabit(id, updates)] puts [{...h, ...updates}] in
    the place of every habit [h] that carries [id] and leaves every habit
    with another identity as it was; when at most one habit carries [id],
    at most one position of the collection changes. *)
Theorem updateHabit_merges_every_match
    (s : HabitState.t) (id : Z) (updates : PartialHabit.t) :
  (forall (i : nat) (h : Habit.t),
      HabitState.habits s !! i = Some h -> Habit.id h = id ->
      HabitState.habits (updateHabit id updates s) !! i
      = Some (spread h updates))
  /\ (forall (i : nat) (h : Habit.t),
        HabitState.habits s !! i = Some h -> Habit.id h <> id ->
        HabitState.habits (updateHabit id updates s) !! i = Some h)
  /\ ((length (matching id (HabitState.habits s)) <= 1)%nat ->
      exists k : nat, forall i : nat, i <> k ->
        HabitState.habits (updateHabit id updates s) !! i
        = HabitState.habits s !! i).
Proof.
  split; [|split].
  - intros i h Hi Hid.
    rewrite habits_updateHabit, list_lookup_fmap, Hi. cbn.
    apply Z.eqb_eq in Hid. rewrite Hid. reflexivity.
  - intros i h Hi Hid.
    rewrite habits_updateHabit, list_lookup_fmap, Hi. cbn.
    apply Z.eqb_neq in Hid. rewrite Hid. reflexivity.
  - intros Hlen. rewrite habits_updateHabit. apply map_single_match, Hlen.
Qed.

(** C6 amended, at the twins: the second habit with identity 1 is renamed
    as the first is. *)
Lemma updateHabit_merges_every_match_witness :
  HabitState.habits (updateHabit 1 (Sample.rename "Run") Sample.twins) !! 1%nat
  = Some (spread (Sample.habit 1 0 2 4 false) (Sample.rename "Run")).
Proof.
  exact (proj1 (updateHabit_merges_every_match Sample.twins 1
                  (Sample.rename "Run"))
               1%nat (Sample.habit 1 0 2 4 false) eq_refl eq_refl).
Defined.

(** The habits the filter of [removeHabit] keeps. *)
Section Remove.

Variable id : Z.

Let keep (h : Habit.t) : bool := negb (Habit.id h =? id)%Z.

Lemma elem_of_kept (habits : list Habit.t) (h : Habit.t) :
  h ∈ List.filter keep habits <-> h ∈ habits /\ Habit.id h <> id.
Proof.
  rewrite !list_elem_of_In, List.filter_In. unfold keep.
  rewrite negb_true_iff, Z.eqb_neq. reflexivity.
Qed.

Lemma kept_sublist (habits : list Habit.t) :
  sublist (List.filter keep habits) habits.
Proof.
  induction habits as [|h hs IH]; [constructor|].
  cbn [List.filter]. destruct (keep h); constructor; exact IH.
Qed.

Lemma kept_length (habits : list Habit.t) :
  (length (List.filter keep habits) + length (matching id habits)
   = length habits)%nat.
Proof.
  induction habits as [|h hs IH]; [reflexivity|].
  unfold matching, keep in *. cbn [List.filter].
  destruct (Habit.id h =? id)%Z; cbn [negb length]; lia.
Qed.

End Remove.

(** C7 as stated fails: where two habits share the identity,
    [removeHabit] takes both out, not exactly one element. *)
Lemma removeHabit_takes_both_twins :
  ~ (forall (s : HabitState.t) (id : Z),
        (exists h, h ∈ HabitState.habits s /\ Habit.id h = id) ->
        length (HabitState.habits s)
        = S (length (HabitState.habits (removeHabit id s)))).
Proof.
  intros H.
  specialize (H Sample.twins 1%Z).
  assert (Hex : exists h, h ∈ HabitState.habits Sample.twins
                          /\ Habit.id h = 1%Z).
  { exists (Sample.habit 1 3 5 10 false). split; [left | reflexivity]. }
  specialize (H Hex). vm_compute in H. discriminate.
Qed.

(** C7, amended. [removeHabit(id)] removes every habit that carries [id]
    (exactly one element when exactly one habit carries it) and keeps the
    others in their order; [addHabit(habit)] appends [habit] at the end,
    whether or not its identity is already in the collection, so habits
    read back in the order they were added. *)
Theorem removeHabit_and_addHabit (s : HabitState.t) (id : Z) :
  (forall h : Habit.t,
      h ∈ HabitState.habits (removeHabit id s)
      <-> h ∈ HabitState.habits s /\ Habit.id h <> id)
  /\ sublist (HabitState.habits (removeHabit id s)) (HabitState.habits s)
  /\ (length (HabitState.habits (removeHabit id s))
      + length (matching id (HabitState.habits s))
      = length (HabitState.habits s))%nat
  /\ (length (matching id (HabitState.habits s)) = 1%nat ->
      length (HabitState.habits s)
      = S (length (HabitState.habits (removeHabit id s))))
  /\ (forall habit : Habit.t,
        HabitState.habits (addHabit habit s)
        = HabitState.habits s ++ [habit])
  /\ (forall first second : Habit.t,
        HabitState.habits (addHabit second (addHabit first s))
        = HabitState.habits s ++ [first; second]).
Proof.
  rewrite habits_removeHabit.
  split; [|split; [|split; [|split; [|split]]]].
  - intros h. apply elem_of_kept.
  - apply kept_sublist.
  - apply kept_length.
  - intros Hone. pose proof (kept_length id (HabitState.habits s)) as Hlen.
    lia.
  - intros habit. apply habits_addHabit.
  - intros first second. rewrite !habits_addHabit, <- app_assoc. reflexivity.
Qed.

(** C7 amended, at three habits: removing the one habit with identity 2
    takes exactly one element out. *)
Lemma removeHabit_and_addHabit_witness :
  length (HabitState.habits Sample.three)
  = S (length (HabitState.habits (removeHabit 2 Sample.three))).
Proof.
  exact (proj1 (proj2 (proj2 (proj2 (removeHabit_and_addHabit Sample.three 2))))
               eq_refl).
Defined.

Example removeHabit_twins :
  Habit.id <$> HabitState.habits (removeHabit 1 Sample.twins) = [3%Z].
Proof. reflexivity. Qed.

Example addHabit_duplicate :
  Habit.id
    <$> HabitState.habits (addHabit (Sample.habit 3 0 0 0 false) Sample.three)
  = [1; 2; 3; 3]%Z.
Proof. reflexivity. Qed.

(** ** The percentage of habits completed today *)

Lemma completed_count_le (habits : list Habit.t) :
  (length (List.filter Habit.is_completed_today habits) <= length habits)%nat.
Proof.
  induction habits as [|h hs IH]; [reflexivity|].
  cbn [List.filter]. destruct (Habit.is_completed_today h); cbn [length]; lia.
Qed.

(** The spec's percentage is an integer between 0 and 100. *)
Lemma Spec_todayProgress_bounds (habits : list Habit.t) :
  (0 <= Spec.todayProgress habits <= 100)%Z.
Proof.
  unfold Spec.todayProgress.
  pose proof (completed_count_le habits) as Hle.
  destruct (Z.eqb_spec (Z.of_nat (length habits)) 0) as [_|Hne]; [lia|].
  split.
  - apply Z.div_pos; lia.
  - apply Z.lt_succ_r. apply Z.div_lt_upper_bound; lia.
Qed.

(** On the empty collection the code answers 0, as the spec does. *)
Lemma getTodayProgress_empty (s : HabitState.t) :
  HabitState.habits s = [] -> getTodayProgress s = JS.of_int 0.
Proof. unfold getTodayProgress. intros ->. reflexivity. Qed.

(** What the two checks say of one size and one count. *)
Lemma exact_below_spec (bound total completed : nat) :
  exact_below bound = true ->
  (1 <= total < bound)%nat -> (completed <= total)%nat ->
  exact_at total completed = true.
Proof.
  unfold exact_below. intros Hall Ht Hc.
  rewrite forallb_forall in Hall. specialize (Hall total).
  rewrite forallb_forall in Hall. apply Hall; apply in_seq; lia.
Qed.

Lemma close_upto_spec (bound total completed : nat) :
  close_upto bound = true ->
  (1 <= total <= bound)%nat -> (completed <= total)%nat ->
  close_at total completed = true.
Proof.
  unfold close_upto. intros Hall Ht Hc.
  rewrite forallb_forall in Hall. specialize (Hall total).
  rewrite forallb_forall in Hall. apply Hall; apply in_seq; lia.
Qed.

Lemma close_upto_100 : close_upto 100 = true.
Proof. vm_compute. reflexivity. Qed.

(** X1. Below forty habits the value computed in binary64 is the spec's
    percentage: every size and count is checked by evaluation. *)
Lemma getTodayProgress_exact_below_40 (s : HabitState.t) :
  (length (HabitState.habits s) < 40)%nat ->
  getTodayProgress s = JS.of_int (Spec.todayProgress (HabitState.habits s))
  /\ (0 <= Spec.todayProgress (HabitState.habits s) <= 100)%Z.
Proof.
  intros Hlt. split; [|apply Spec_todayProgress_bounds].
  unfold getTodayProgress, Spec.todayProgress.
  pose proof (completed_count_le (HabitState.habits s)) as Hle.
  set (n := length (HabitState.habits s)) in *.
  set (c := length (List.filter Habit.is_completed_today (HabitState.habits s)))
    in *.
  destruct (Nat.eqb_spec n 0) as [->|Hn]; [reflexivity|].
  destruct (Z.eqb_spec (Z.of_nat n) 0) as [|_]; [lia|].
  pose proof (exact_below_spec 40 n c exact_below_40 ltac:(lia) Hle) as Hc.
  unfold exact_at in Hc. apply bool_decide_eq_true in Hc. exact Hc.
Qed.

(** The sizes below forty include the spec's scenarios. *)
Lemma getTodayProgress_exact_below_40_witness :
  getTodayProgress Sample.three
  = JS.of_int (Spec.todayProgress (HabitState.habits Sample.three))
  /\ (0 <= Spec.todayProgress (HabitState.habits Sample.three) <= 100)%Z.
Proof.
  apply (getTodayProgress_exact_below_40 Sample.three). vm_compute. lia.
Defined.

(** C2 fails at forty habits of which twenty-three are completed today.
    The exact percentage is 57.5 and rounds to 58; the code divides first,
    23 / 40 is rounded to the binary64 value nearest 0.575, and its product
    with 100 is (115 * 2^46 - 1) * 2^-47, one unit in the last place below
    57.5, which [Math.round] takes down to 57.  At one habit completed out
    of eight the exact 12.5 is computed exactly and goes up to 13. *)
Theorem getTodayProgress_tie_rounds_down :
  length (HabitState.habits Sample.forty) = 40%nat
  /\ getCompletedToday Sample.forty = 23%nat
  /\ JS.mul (JS.div (JS.of_nat 23) (JS.of_nat 40)) (JS.of_int 100)
     = S754_finite false (115 * 2 ^ 46 - 1) (-47)
  /\ getTodayProgress Sample.forty = JS.of_int 57
  /\ Spec.todayProgress (HabitState.habits Sample.forty) = 58%Z
  /\ getTodayProgress Sample.forty
     <> JS.of_int (Spec.todayProgress (HabitState.habits Sample.forty))
  /\ getTodayProgress
       (Sample.with_habits (Sample.habit 1 1 1 1 true
                            :: replicate 7 (Sample.habit 2 0 0 0 false)))
     = JS.of_int 13.
Proof.
  vm_compute. repeat split; try reflexivity. discriminate.
Qed.

(** X2. Up to one hundred habits the value computed in binary64 is an integer
    from 0 to 100, the spec's percentage or the integer just below it. *)
Lemma getTodayProgress_close_upto_100 (s : HabitState.t) :
  (length (HabitState.habits s) <= 100)%nat ->
  exists z : Z,
    getTodayProgress s = JS.of_int z
    /\ (0 <= z <= 100)%Z
    /\ (z = Spec.todayProgress (HabitState.habits s)
        \/ z = (Spec.todayProgress (HabitState.habits s) - 1)%Z).
Proof.
  intros Hlt.
  pose proof (Spec_todayProgress_bounds (HabitState.habits s)) as Hb.
  revert Hb. unfold getTodayProgress, Spec.todayProgress.
  pose proof (completed_count_le (HabitState.habits s)) as Hle.
  set (n := length (HabitState.habits s)) in *.
  set (c := length (List.filter Habit.is_completed_today (HabitState.habits s)))
    in *.
  destruct (Nat.eqb_spec n 0) as [->|Hn].
  { intros _. exists 0%Z. cbn. repeat split; try lia. left. reflexivity. }
  destruct (Z.eqb_spec (Z.of_nat n) 0) as [|_]; [lia|].
  intros Hb.
  pose proof (close_upto_spec 100 n c close_upto_100 ltac:(lia) Hle) as Hc.
  unfold close_at in Hc. apply orb_true_iff in Hc.
  destruct Hc as [Hc|Hc].
  - apply bool_decide_eq_true in Hc. eexists. split; [exact Hc|].
    split; [exact Hb | left; reflexivity].
  - apply andb_true_iff in Hc. destruct Hc as [Hpos Hc].
    apply Z.leb_le in Hpos. apply bool_decide_eq_true in Hc.
    eexists. split; [exact Hc|]. split; [lia | right; reflexivity].
Qed.

(** The forty habits of the failing case are within the hundred. *)
Lemma getTodayProgress_close_upto_100_witness :
  exists z : Z,
    getTodayProgress Sample.forty = JS.of_int z
    /\ (0 <= z <= 100)%Z
    /\ (z = Spec.todayProgress (HabitState.habits Sample.forty)
        \/ z = (Spec.todayProgress (HabitState.habits Sample.forty) - 1)%Z).
Proof.
  apply (getTodayProgress_close_upto_100 Sample.forty). vm_compute. lia.
Defined.

(** * Further properties of the store *)

(** ** Fields an action does not name *)

Lemma override_idem {A : Type} (x : A) (o : option A) :
  override (override x o) o = override x o.
Proof. destruct o; reflexivity. Qed.

(** Actions that rewrite the collection: one after the other, and two
    that write the same collection. *)
Section Rewrites.

Variables f g : list Habit.t -> list Habit.t.
Variable s : HabitState.t.

Lemma set_habits_compose :
  set (fun state => Patch.of_habits (g (HabitState.habits state)))
      (set (fun state => Patch.of_habits (f (HabitState.habits state))) s)
  = set (fun state => Patch.of_habits (g (f (HabitState.habits state)))) s.
Proof. reflexivity. Qed.

Lemma set_habits_same :
  f (HabitState.habits s) = HabitState.habits s ->
  set (fun state => Patch.of_habits (f (HabitState.habits state))) s = s.
Proof. unfold set. intros ->. apply assign_same_habits. Qed.

Lemma set_habits_ext :
  f (HabitState.habits s) = g (HabitState.habits s) ->
  set (fun state => Patch.of_habits (f (HabitState.habits state))) s
  = set (fun state => Patch.of_habits (g (HabitState.habits state))) s.
Proof. unfold set. intros ->. reflexivity. Qed.

End Rewrites.

(** X4. Each of the seven single-field setters stores its argument in its
    own field and leaves the habit collection, and with it the three
    computed values, as they were. *)
Theorem session_setters_keep_habits
    (s : HabitState.t) (u : User.t) (w : WeeklySummary.t)
    (f : FailureAnalysis.t) (p : WeeklyProgress.t) (b : bool)
    (e : option string) (i : option Z) :
  (HabitState.user (setUser u s) = Some u
   /\ HabitState.weeklySummary (setWeeklySummary w s) = Some w
   /\ HabitState.failureAnalysis (setFailureAnalysis f s) = Some f
   /\ HabitState.weeklyProgress (setWeeklyProgress p s) = Some p
   /\ HabitState.isLoading (setLoading b s) = b
   /\ HabitState.error (setError e s) = e
   /\ HabitState.selectedHabitId (selectHabit i s) = i)
  /\ Forall
       (fun action : HabitState.t -> HabitState.t =>
          HabitState.habits (action s) = HabitState.habits s
          /\ getTodayProgress (action s) = getTodayProgress s
          /\ getCompletedToday (action s) = getCompletedToday s
          /\ getStreakData (action s) = getStreakData s)
       [setUser u; setWeeklySummary w; setFailureAnalysis f;
        setWeeklyProgress p; setLoading b; setError e; selectHabit i].
Proof.
  split; [repeat split|].
  repeat (apply Forall_cons; split; [repeat split|]). apply Forall_nil_2.
Qed.

(** X5. The selection is a bare identity: [selectHabit] accepts any, and
    [removeHabit] leaves it alone, so after the selected habit is removed
    the selection still names it although no habit carries it. *)
Theorem removeHabit_leaves_selection (s : HabitState.t) (id : Z) :
  HabitState.selectedHabitId (removeHabit id s) = HabitState.selectedHabitId s
  /\ HabitState.selectedHabitId (removeHabit id (selectHabit (Some id) s))
     = Some id
  /\ forall h : Habit.t,
      h ∈ HabitState.habits (removeHabit id (selectHabit (Some id) s)) ->
      Habit.id h <> id.
Proof.
  split; [reflexivity|]. split; [reflexivity|].
  intros h Hin. rewrite habits_removeHabit in Hin.
  apply elem_of_kept in Hin. apply Hin.
Qed.

(** X6. A habit added under an identity no habit carries is taken out
    again by [removeHabit] of that identity, which restores the state. *)
Theorem addHabit_then_removeHabit (s : HabitState.t) (habit : Habit.t) :
  (forall h, h ∈ HabitState.habits s -> Habit.id h <> Habit.id habit) ->
  removeHabit (Habit.id habit) (addHabit habit s) = s.
Proof.
  intros Hfresh. unfold removeHabit, addHabit.
  rewrite (set_habits_compose
             (fun l => l ++ [habit])
             (List.filter (fun h => negb (Habit.id h =? Habit.id habit)%Z))).
  apply (set_habits_same
           (fun l => List.filter
                       (fun h => negb (Habit.id h =? Habit.id habit)%Z)
                       (l ++ [habit]))).
  rewrite List.filter_app, (filter_unmatched _ _ Hfresh).
  cbn [List.filter]. rewrite Z.eqb_refl. cbn [negb]. apply app_nil_r.
Qed.

(** X6 at three habits and a new one with identity 9. *)
Lemma addHabit_then_removeHabit_witness :
  removeHabit 9 (addHabit (Sample.habit 9 0 0 0 false) Sample.three)
  = Sample.three.
Proof.
  exact (addHabit_then_removeHabit Sample.three (Sample.habit 9 0 0 0 false)
                                   three_has_no_9).
Defined.

(** Where the identity is already taken the round trip loses a habit. *)
Example addHabit_then_removeHabit_taken :
  Habit.id
    <$> HabitState.habits
          (removeHabit 2 (addHabit (Sample.habit 2 0 0 0 false) Sample.three))
  = [1; 3]%Z.
Proof. reflexivity. Qed.

(** ** Updates applied more than once *)

Lemma spread_idem (h : Habit.t) (updates : PartialHabit.t) :
  spread (spread h updates) updates = spread h updates.
Proof.
  unfold spread. cbn. rewrite !override_idem. reflexivity.
Qed.

Lemma spread_keeps_id (h : Habit.t) (updates : PartialHabit.t) :
  PartialHabit.id updates = None ->
  Habit.id (spread h updates) = Habit.id h.
Proof. intros Hkey. cbn. rewrite Hkey. reflexivity. Qed.

(** X7. With updates that carry no [id] key, [updateHabit] applied twice
    is [updateHabit] applied once, and updates under two different
    identities can be applied in either order. *)
Theorem updateHabit_idempotent_and_commuting
    (s : HabitState.t) (a b : Z) (u v : PartialHabit.t) :
  PartialHabit.id u = None -> PartialHabit.id v = None ->
  updateHabit a u (updateHabit a u s) = updateHabit a u s
  /\ (a <> b ->
      updateHabit a u (updateHabit b v s) = updateHabit b v (updateHabit a u s)).
Proof.
  intros Hu Hv. unfold updateHabit. split.
  - rewrite (set_habits_compose
               (map (fun h => if (Habit.id h =? a)%Z then spread h u else h))
               (map (fun h => if (Habit.id h =? a)%Z then spread h u else h))).
    apply (set_habits_ext
             (fun l => map _ (map _ l))
             (map (fun h => if (Habit.id h =? a)%Z then spread h u else h))).
    rewrite map_map. apply map_ext. intros h.
    destruct (Z.eqb_spec (Habit.id h) a) as [E|Hne].
    + rewrite (spread_keeps_id _ _ Hu).
      apply Z.eqb_eq in E. rewrite E. apply spread_idem.
    + apply Z.eqb_neq in Hne. rewrite Hne. reflexivity.
  - intros Hab.
    rewrite (set_habits_compose
               (map (fun h => if (Habit.id h =? b)%Z then spread h v else h))
               (map (fun h => if (Habit.id h =? a)%Z then spread h u else h))).
    rewrite (set_habits_compose
               (map (fun h => if (Habit.id h =? a)%Z then spread h u else h))
               (map (fun h => if (Habit.id h =? b)%Z then spread h v else h))).
    apply (set_habits_ext (fun l => map _ (map _ l))
                          (fun l => map _ (map _ l))).
    rewrite !map_map. apply map_ext. intros h.
    destruct (Habit.id h =? a)%Z eqn:Ea; destruct (Habit.id h =? b)%Z eqn:Eb;
      rewrite ?(spread_keeps_id _ _ Hu), ?(spread_keeps_id _ _ Hv), ?Ea, ?Eb;
      try reflexivity.
    apply Z.eqb_eq in Ea, Eb. congruence.
Qed.

(** X7 at three habits, renaming the habits 1 and 2. *)
Lemma updateHabit_idempotent_and_commuting_witness :
  updateHabit 1 (Sample.rename "Run")
    (updateHabit 1 (Sample.rename "Run") Sample.three)
  = updateHabit 1 (Sample.rename "Run") Sample.three
  /\ (1%Z <> 2%Z ->
      updateHabit 1 (Sample.rename "Run")
        (updateHabit 2 (Sample.rename "Swim") Sample.three)
      = updateHabit 2 (Sample.rename "Swim")
          (updateHabit 1 (Sample.rename "Run") Sample.three)).
Proof.
  exact (updateHabit_idempotent_and_commuting Sample.three 1 2
           (Sample.rename "Run") (Sample.rename "Swim") eq_refl eq_refl).
Defined.

(** X8. After [removeHabit(id)] a second [removeHabit(id)], an
    [updateHabit(id, ...)] and a [completeHabit(id)] all change nothing. *)
Theorem removeHabit_settles_id
    (s : HabitState.t) (id : Z) (updates : PartialHabit.t) :
  removeHabit id (removeHabit id s) = removeHabit id s
  /\ updateHabit id updates (removeHabit id s) = removeHabit id s
  /\ completeHabit id (removeHabit id s) = removeHabit id s.
Proof.
  assert (Hgone : forall h,
             h ∈ HabitState.habits (removeHabit id s) -> Habit.id h <> id).
  { intros h Hin. rewrite habits_removeHabit in Hin.
    apply elem_of_kept in Hin. apply Hin. }
  split; [|split].
  - unfold removeHabit at 1. unfold set.
    rewrite (filter_unmatched id _ Hgone). apply assign_same_habits.
  - unfold updateHabit, set.
    rewrite (map_unmatched id _ Hgone). apply assign_same_habits.
  - unfold completeHabit, set.
    rewrite (map_unmatched id _ Hgone). apply assign_same_habits.
Qed.

(** ** What [completeHabit] does to the computed values *)

(** Counting the completed habits after the map of [completeHabit]. *)
Lemma completed_count_after (id : Z) (habits : list Habit.t) :
  length
    (List.filter Habit.is_completed_today
       (map (fun h => if (Habit.id h =? id)%Z then completed h else h) habits))
  = (length (List.filter Habit.is_completed_today habits)
     + length (List.filter (fun h => negb (Habit.is_completed_today h))
                           (matching id habits)))%nat.
Proof.
  unfold matching.
  induction habits as [|h hs IH]; [reflexivity|].
  cbn [map List.filter].
  destruct (Habit.id h =? id)%Z; cbn [List.filter].
  - change (Habit.is_completed_today (completed h)) with true.
    destruct (Habit.is_completed_today h); cbn [negb length]; lia.
  - destruct (Habit.is_completed_today h); cbn [length]; lia.
Qed.

(** X9. [completeHabit(id)] raises [getCompletedToday()] by the number of
    habits that carry [id] and were not yet completed today; the count
    never goes down, and stays within the size of the collection. *)
Theorem completeHabit_counts_new_completions (s : HabitState.t) (id : Z) :
  getCompletedToday (completeHabit id s)
  = (getCompletedToday s
     + length (List.filter (fun h => negb (Habit.is_completed_today h))
                           (matching id (HabitState.habits s))))%nat
  /\ (getCompletedToday s <= getCompletedToday (completeHabit id s)
      <= length (HabitState.habits s))%nat.
Proof.
  unfold getCompletedToday. rewrite habits_completeHabit.
  rewrite completed_count_after. split; [reflexivity|].
  split; [lia|].
  rewrite <- completed_count_after.
  etransitivity; [apply completed_count_le|]. rewrite length_map. reflexivity.
Qed.

(** X10. [completeHabit(id)] leaves [getStreakData().best] as it was, since
    no [best_streak] changes; and where every [current_streak] is from
    -2^53 to 2^53 - 1, the range on which binary64 adds 1 exactly, it
    raises [getStreakData().current] by 0 or by 1. *)
Theorem completeHabit_streak_summary (s : HabitState.t) (id : Z) :
  StreakData.best (getStreakData (completeHabit id s))
  = StreakData.best (getStreakData s)
  /\ ((forall h, h ∈ HabitState.habits s ->
                  (- 2 ^ 53 <= Habit.current_streak h <= 2 ^ 53 - 1)%Z) ->
      exists m m' : Z,
        StreakData.current (getStreakData s) = JS.Int m
        /\ StreakData.current (getStreakData (completeHabit id s)) = JS.Int m'
        /\ (m <= m' <= m + 1)%Z).
Proof.
  unfold getStreakData. rewrite habits_completeHabit.
  cbn [StreakData.best StreakData.current]. rewrite length_map.
  set (f := fun h => if (Habit.id h =? id)%Z then completed h else h).
  split.
  - rewrite map_map.
    replace (map (fun x => Habit.best_streak (f x)) (HabitState.habits s))
      with (map Habit.best_streak (HabitState.habits s)); [reflexivity|].
    apply map_ext. intros h. unfold f.
    destruct (Habit.id h =? id)%Z; reflexivity.
  - intros Hrange. destruct (HabitState.habits s) as [|h hs] eqn:E.
    + exists 0%Z, 0%Z. cbn. repeat split; lia.
    + destruct (Math_min_cons (Habit.current_streak h)
                              (Habit.current_streak <$> hs)) as (m & Em & Hm).
      destruct (Math_min_cons (Habit.current_streak (f h))
                              (Habit.current_streak <$> (f <$> hs)))
        as (m' & Em' & Hm').
      exists m, m'.
      cbn [length Nat.ltb Nat.leb]. split; [exact Em|]. split; [exact Em'|].
      destruct Hm as [Hin Hle]. destruct Hm' as [Hin' Hle'].
      change (m' ∈ Habit.current_streak <$> (f <$> (h :: hs))) in Hin'.
      change (forall x, x ∈ Habit.current_streak <$> (f <$> (h :: hs))
                        -> (m' <= x)%Z) in Hle'.
      change (m ∈ Habit.current_streak <$> (h :: hs)) in Hin.
      change (forall x, x ∈ Habit.current_streak <$> (h :: hs)
                        -> (m <= x)%Z) in Hle.
      assert (Hf : forall h0, h0 ∈ h :: hs ->
                 (Habit.current_streak h0 <= Habit.current_streak (f h0)
                  <= Habit.current_streak h0 + 1)%Z).
      { intros h0 Hh0. specialize (Hrange h0 Hh0). unfold f.
        destruct (Habit.id h0 =? id)%Z; [|lia].
        cbn. rewrite add_one_exact by exact Hrange. lia. }
      apply list_elem_of_fmap in Hin as (h1 & -> & Hh1).
      apply list_elem_of_fmap in Hin' as (h1' & -> & Hh1').
      apply list_elem_of_fmap in Hh1' as (h2 & -> & Hh2).
      split.
      * specialize (Hle (Habit.current_streak h2)
                        (list_elem_of_fmap_2 _ _ _ Hh2)).
        specialize (Hf h2 Hh2). lia.
      * assert (Habit.current_streak (f h1)
                  ∈ Habit.current_streak <$> (f <$> (h :: hs))) as Hmem.
        { apply list_elem_of_fmap_2, list_elem_of_fmap_2, Hh1. }
        specialize (Hle' _ Hmem). specialize (Hf h1 Hh1). lia.
Qed.

(** The streaks of the three sample habits are within the range. *)
Lemma three_streaks_in_range :
  forall h, h ∈ HabitState.habits Sample.three ->
            (- 2 ^ 53 <= Habit.current_streak h <= 2 ^ 53 - 1)%Z.
Proof.
  intros h Hin. cbn in Hin.
  repeat (apply elem_of_cons in Hin; destruct Hin as [->|Hin]; [cbn; lia|]).
  apply elem_of_nil in Hin. destruct Hin.
Defined.

(** X10 at three habits, completing the second, whose streak of 0 is the
    least. *)
Lemma completeHabit_streak_summary_witness :
  exists m m' : Z,
    StreakData.current (getStreakData Sample.three) = JS.Int m
    /\ StreakData.current (getStreakData (completeHabit 2 Sample.three))
       = JS.Int m'
    /\ (m <= m' <= m + 1)%Z.
Proof.
  exact (proj2 (completeHabit_streak_summary Sample.three 2)
               three_streaks_in_range).
Defined.

(** * The pages that drive the store *)

(** ** Completing a habit from a page *)

(** X11. When the request resolves and the handler holds the collection
    the store holds, the handlers of the Habits page and of the dashboard
    leave the store exactly as the store's own [completeHabit] would; when
    the request is rejected they leave the store as it is. *)
Theorem page_handlers_act_as_completeHabit
    (s : HabitState.t) (id : Z) (captured : list Habit.t) :
  HabitsPage.handleComplete (HabitState.habits s) true id s = completeHabit id s
  /\ Dashboard.handleCompleteHabit (HabitState.habits s) true id s
     = completeHabit id s
  /\ HabitsPage.handleComplete captured false id s = s
  /\ Dashboard.handleCompleteHabit captured false id s = s.
Proof. repeat split. Qed.

(** X12. The handler writes back the collection its render read: a habit
    created, or removed, between that render and the answer of the
    request is lost, or comes back, when the answer arrives. *)
Theorem stale_handler_overwrites_collection
    (s0 : HabitState.t) (id other : Z) (created : Habit.t) :
  HabitState.habits
    (HabitsPage.handleComplete (HabitState.habits s0) true id
       (HabitsPage.handleCreate (Some created) s0))
  = HabitState.habits (completeHabit id s0)
  /\ created ∈ HabitState.habits (HabitsPage.handleCreate (Some created) s0)
  /\ length
       (HabitState.habits
          (HabitsPage.handleComplete (HabitState.habits s0) true id
             (HabitsPage.handleCreate (Some created) s0)))
     = length (HabitState.habits s0)
  /\ HabitState.habits
       (HabitsPage.handleComplete (HabitState.habits s0) true id
          (removeHabit other s0))
     = HabitState.habits (completeHabit id s0).
Proof.
  split; [reflexivity|]. split; [|split; [|reflexivity]].
  - cbn [HabitsPage.handleCreate]. rewrite habits_addHabit.
    apply elem_of_app. right. left.
  - change (length (HabitState.habits (completeHabit id s0))
            = length (HabitState.habits s0)).
    rewrite habits_completeHabit. apply length_map.
Qed.




(** Two completions in flight from one render: the second answer writes
    the collection that render read, so the first completion is undone. *)
Example second_answer_undoes_first :
  let rendered := HabitState.habits Sample.three in
  let first := Dashboard.clickCard rendered (Sample.habit 1 3 5 10 false) true in
  let second := Dashboard.clickCard rendered (Sample.habit 3 7 9 20 false) true in
  (Habit.id <$> HabitState.habits (second (first Sample.three)),
   Habit.is_completed_today <$> HabitState.habits (second (first Sample.three)))
  = ([1; 2; 3]%Z, [false; true; true]).
Proof. reflexivity. Qed.

(** ** The tabs of the Habits page *)

(** X14. The active tab and the archive split the collection: each keeps
    the order of the store, every habit is on exactly one of them, and
    the two together are the collection up to order. *)
Theorem tabs_partition_habits (habits : list Habit.t) :
  HabitsPage.activeHabits habits ++ HabitsPage.archivedHabits habits ≡ₚ habits
  /\ sublist (HabitsPage.activeHabits habits) habits
  /\ sublist (HabitsPage.archivedHabits habits) habits
  /\ (length (HabitsPage.activeHabits habits)
      + length (HabitsPage.archivedHabits habits) = length habits)%nat
  /\ (forall h, h ∈ HabitsPage.activeHabits habits
                <-> h ∈ habits /\ Habit.is_active h = true)
  /\ (forall h, h ∈ HabitsPage.archivedHabits habits
                <-> h ∈ habits /\ Habit.is_active h = false).
Proof.
  unfold HabitsPage.activeHabits, HabitsPage.archivedHabits.
  split; [|split; [|split; [|split; [|split]]]].
  - induction habits as [|h hs IH]; [reflexivity|].
    cbn [List.filter]. destruct (Habit.is_active h); cbn [negb].
    + cbn [app]. constructor. exact IH.
    + rewrite <- Permutation_middle. constructor. exact IH.
  - induction habits as [|h hs IH]; [constructor|].
    cbn [List.filter]. destruct (Habit.is_active h); constructor; exact IH.
  - induction habits as [|h hs IH]; [constructor|].
    cbn [List.filter]. destruct (Habit.is_active h); constructor; exact IH.
  - induction habits as [|h hs IH]; [reflexivity|].
    cbn [List.filter]. destruct (Habit.is_active h); cbn [negb length]; lia.
  - intros h. rewrite !list_elem_of_In, List.filter_In. reflexivity.
  - intros h. rewrite !list_elem_of_In, List.filter_In, negb_true_iff.
    reflexivity.
Qed.

(** ** Loading the data at start *)

(** X15. [loadData] always ends with [isLoading] false.  When both
    requests resolve, the collection is the one received (the empty one if
    the answer has none) and the user is the profile received, while an
    error message left by an earlier failure stays; when a request is
    rejected, the error message is set and habits and user stay. *)
Theorem loadData_outcomes
    (s : HabitState.t) (habits : option (list Habit.t)) (userData : User.t) :
  (forall result, HabitState.isLoading (App.loadData result s) = false)
  /\ HabitState.habits (App.loadData (App.Resolved habits userData) s)
     = default [] habits
  /\ HabitState.user (App.loadData (App.Resolved habits userData) s)
     = Some userData
  /\ HabitState.error (App.loadData (App.Resolved habits userData) s)
     = HabitState.error s
  /\ HabitState.habits (App.loadData App.Rejected s) = HabitState.habits s
  /\ HabitState.user (App.loadData App.Rejected s) = HabitState.user s
  /\ is_Some (HabitState.error (App.loadData App.Rejected s)).
Proof.
  split; [intros [hs u|]; reflexivity|].
  repeat split. eexists. reflexivity.
Qed.

(** ** The dashboard's reading of the progress *)

Lemma full_upto_100 : full_upto 100 = true.
Proof. vm_compute. reflexivity. Qed.

Lemma integers_upto_100 : integers_upto 100 = true.
Proof. vm_compute. reflexivity. Qed.

Lemma integer_at_spec (k : nat) :
  (k <= 100)%nat -> integer_at k = true.
Proof.
  intros Hk. pose proof integers_upto_100 as Hall.
  unfold integers_upto in Hall. rewrite forallb_forall in Hall.
  apply Hall. apply in_seq. lia.
Qed.

(** All habits are completed today exactly when the count of the
    completed ones is the size of the collection. *)
Lemma all_completed_iff_count (habits : list Habit.t) :
  length (List.filter Habit.is_completed_today habits) = length habits
  <-> forall h, h ∈ habits -> Habit.is_completed_today h = true.
Proof.
  induction habits as [|h hs IH].
  - split; [|reflexivity]. intros _ h Hin. apply elem_of_nil in Hin. destruct Hin.
  - pose proof (completed_count_le hs) as Hle.
    cbn [List.filter]. destruct (Habit.is_completed_today h) eqn:E; cbn [length].
    + split.
      * intros Hlen h' Hin. apply elem_of_cons in Hin. destruct Hin as [->|Hin].
        -- exact E.
        -- apply IH; [lia | exact Hin].
      * intros Hall. f_equal. apply IH. intros h' Hin. apply Hall. right.
        exact Hin.
    + split; [lia|]. intros Hall. specialize (Hall h ltac:(left)). congruence.
Qed.

(** Up to a hundred habits the computed percentage is the binary64 value
    of an integer from 0 to 100, and it is 100 only when the count of
    completed habits is the size of the collection. *)
Lemma getTodayProgress_integer (s : HabitState.t) :
  (length (HabitState.habits s) <= 100)%nat ->
  exists k : nat,
    (k <= 100)%nat
    /\ getTodayProgress s = JS.of_nat k
    /\ (k = 100%nat <->
        HabitState.habits s <> []
        /\ forall h, h ∈ HabitState.habits s
                     -> Habit.is_completed_today h = true).
Proof.
  intros Hlen.
  pose proof (all_completed_iff_count (HabitState.habits s)) as Hcount.
  pose proof (completed_count_le (HabitState.habits s)) as Hle.
  unfold getTodayProgress. cbv zeta.
  set (n := length (HabitState.habits s)) in *.
  set (c := length (List.filter Habit.is_completed_today (HabitState.habits s)))
    in *.
  destruct (Nat.eqb_spec n 0) as [Hn0|Hn].
  { exists 0%nat. split; [lia|]. split; [reflexivity|].
    split; [discriminate|]. intros [Hne _].
    apply length_zero_iff_nil in Hn0. contradiction. }
  assert (Hnonempty : HabitState.habits s <> []).
  { intros Hnil. apply Hn. unfold n. rewrite Hnil. reflexivity. }
  destruct (Nat.eq_dec c n) as [Hcn|Hcn].
  - exists 100%nat. split; [lia|]. split; [|tauto].
    rewrite Hcn.
    pose proof full_upto_100 as Hall. unfold full_upto in Hall.
    rewrite forallb_forall in Hall.
    specialize (Hall n ltac:(apply in_seq; lia)).
    unfold full_at in Hall. apply bool_decide_eq_true in Hall. exact Hall.
  - pose proof (close_upto_spec 100 n c close_upto_100 ltac:(lia) Hle) as Hc.
    unfold close_at in Hc.
    set (exact := ((200 * Z.of_nat c + Z.of_nat n) / (2 * Z.of_nat n))%Z) in *.
    assert (Hex : (0 <= exact <= 99)%Z).
    { unfold exact. split.
      - apply Z.div_pos; lia.
      - apply Z.lt_succ_r. apply Z.div_lt_upper_bound; lia. }
    apply orb_true_iff in Hc. destruct Hc as [Hc|Hc].
    + apply bool_decide_eq_true in Hc.
      exists (Z.to_nat exact). split; [lia|]. split.
      * unfold JS.of_nat. rewrite Z2Nat.id by lia. exact Hc.
      * split; [lia|]. intros [_ Hall]. apply Hcount in Hall. contradiction.
    + apply andb_true_iff in Hc. destruct Hc as [Hpos Hc].
      apply Z.leb_le in Hpos. apply bool_decide_eq_true in Hc.
      exists (Z.to_nat (exact - 1)). split; [lia|]. split.
      * unfold JS.of_nat. rewrite Z2Nat.id by lia. exact Hc.
      * split; [lia|]. intros [_ Hall]. apply Hcount in Hall. contradiction.
Qed.

(** X16. Whatever the size of the collection, a progress that [===] 100
    comes from a collection that is not empty, so the test on
    [totalHabits] in the confetti effect never decides; and up to a
    hundred habits the confetti fires exactly when the collection is not
    empty, every habit is completed today and no confetti was shown. *)
Theorem confetti_when_all_completed (s : HabitState.t) (showConfetti : bool) :
  (JSCompare.strict_eq (getTodayProgress s) (JS.of_int 100) = true ->
   HabitState.habits s <> [])
  /\ ((length (HabitState.habits s) <= 100)%nat ->
      (Dashboard.confetti s showConfetti = true
       <-> HabitState.habits s <> []
           /\ (forall h, h ∈ HabitState.habits s
                         -> Habit.is_completed_today h = true)
           /\ showConfetti = false)).
Proof.
  split.
  - intros Heq Hnil. unfold getTodayProgress in Heq. rewrite Hnil in Heq.
    vm_compute in Heq. discriminate.
  - intros Hlen.
    destruct (getTodayProgress_integer s Hlen) as (k & Hk & Ek & Hiff).
    unfold Dashboard.confetti. cbv zeta. rewrite Ek.
    pose proof (integer_at_spec k Hk) as Hint.
    unfold integer_at in Hint. apply andb_true_iff in Hint.
    destruct Hint as [Hint _]. apply Bool.eqb_prop in Hint. rewrite Hint.
    rewrite !andb_true_iff, Nat.eqb_eq, Nat.ltb_lt, negb_true_iff.
    split.
    + intros [[Hk100 _] Hshow]. apply Hiff in Hk100. tauto.
    + intros (Hne & Hall & Hshow). split; [split|exact Hshow].
      * apply Hiff. tauto.
      * destruct (HabitState.habits s); [contradiction | cbn; lia].
Qed.

(** X16 at two habits, both completed today, no confetti shown yet. *)
Lemma confetti_when_all_completed_witness :
  Dashboard.confetti
    (Sample.with_habits [Sample.habit 1 1 1 1 true; Sample.habit 2 3 3 3 true])
    false = true
  <-> HabitState.habits
        (Sample.with_habits
           [Sample.habit 1 1 1 1 true; Sample.habit 2 3 3 3 true]) <> []
      /\ (forall h,
             h ∈ HabitState.habits
                   (Sample.with_habits
                      [Sample.habit 1 1 1 1 true; Sample.habit 2 3 3 3 true])
             -> Habit.is_completed_today h = true)
      /\ false = false.
Proof.
  apply (proj2 (confetti_when_all_completed
                  (Sample.with_habits
                     [Sample.habit 1 1 1 1 true; Sample.habit 2 3 3 3 true])
                  false)).
  vm_compute. lia.
Defined.

(** X17. Up to a hundred habits the ring the dashboard draws has the
    colour of the band of the integer percentage (from 25, 50, 75 and at
    100), and it is green exactly when the collection is not empty and
    every habit is completed today. *)
Theorem ring_colour_of_progress (s : HabitState.t) :
  (length (HabitState.habits s) <= 100)%nat ->
  (exists k : nat,
      (k <= 100)%nat
      /\ getTodayProgress s = JS.of_nat k
      /\ ProgressRing.getColor (getTodayProgress s) = band k)
  /\ (ProgressRing.getColor (getTodayProgress s) = "#22c55e"
      <-> HabitState.habits s <> []
          /\ forall h, h ∈ HabitState.habits s
                       -> Habit.is_completed_today h = true).
Proof.
  intros Hlen.
  destruct (getTodayProgress_integer s Hlen) as (k & Hk & Ek & Hiff).
  pose proof (integer_at_spec k Hk) as Hint.
  unfold integer_at in Hint. apply andb_true_iff in Hint.
  destruct Hint as [_ Hband]. apply bool_decide_eq_true in Hband.
  split.
  - exists k. rewrite Ek. auto.
  - rewrite Ek, Hband, <- Hiff. unfold band.
    destruct (Nat.leb_spec 100 k) as [Hge|Hlt].
    + split; [lia | reflexivity].
    + split; [|lia].
      repeat (match goal with
              | |- context [(?a <=? k)%nat] => destruct (a <=? k)%nat
              end); discriminate.
Qed.

(** X17 at three habits of which one is completed: 33 percent, orange. *)
Lemma ring_colour_of_progress_witness :
  ProgressRing.getColor (getTodayProgress Sample.three) = "#22c55e"
  <-> HabitState.habits Sample.three <> []
      /\ forall h, h ∈ HabitState.habits Sample.three
                   -> Habit.is_completed_today h = true.
Proof.
  apply (proj2 (ring_colour_of_progress Sample.three ltac:(vm_compute; lia))).
Defined.

Example ring_three : ProgressRing.getColor (getTodayProgress Sample.three) = "#f97316".
Proof. vm_compute. reflexivity. Qed.

(** ** The failure widget *)

(** X18. With no negative streak in the store, completing a habit never
    raises the failure widget: no habit that carries the completed
    identity counts as a failure afterwards, and if the widget shows
    after [completeHabit] it showed before. *)
Theorem completing_never_raises_failures (s : HabitState.t) (id : Z) :
  (forall h, h ∈ HabitState.habits s -> (0 <= Habit.current_streak h)%Z) ->
  (forall h', h' ∈ HabitState.habits (completeHabit id s) ->
              Habit.id h' = id ->
              Dashboard.hasFailures [h'] = false)
  /\ (Dashboard.hasFailures (HabitState.habits (completeHabit id s)) = true ->
      Dashboard.hasFailures (HabitState.habits s) = true).
Proof.
  intros Hnonneg. rewrite habits_completeHabit. split.
  - intros h' Hin Hid. apply list_elem_of_fmap in Hin as (h & -> & Hh).
    destruct (Habit.id h =? id)%Z eqn:E.
    + specialize (Hnonneg h Hh). unfold Dashboard.hasFailures. cbn.
      pose proof (add_one_pos _ Hnonneg) as Hpos.
      destruct (Z.eqb_spec (JS.add (Habit.current_streak h) 1) 0) as [H0|_];
        [lia|].
      reflexivity.
    + apply Z.eqb_neq in E. contradiction.
  - unfold Dashboard.hasFailures. rewrite !existsb_exists.
    intros (h' & Hin & Hfail). apply in_map_iff in Hin as (h & <- & Hh).
    destruct (Habit.id h =? id)%Z.
    + specialize (Hnonneg h ltac:(apply list_elem_of_In; exact Hh)).
      pose proof (add_one_pos _ Hnonneg) as Hpos.
      cbn in Hfail. apply andb_true_iff in Hfail. destruct Hfail as [H0 _].
      apply Z.eqb_eq in H0. lia.
    + exists h. split; assumption.
Qed.

(** The streaks of the three sample habits are not negative. *)
Lemma three_streaks_nonneg :
  forall h, h ∈ HabitState.habits Sample.three -> (0 <= Habit.current_streak h)%Z.
Proof.
  intros h Hin. cbn in Hin.
  repeat (apply elem_of_cons in Hin; destruct Hin as [->|Hin]; [cbn; lia|]).
  apply elem_of_nil in Hin. destruct Hin.
Defined.

(** X18 at three habits, completing the second, whose streak was 0. *)
Lemma completing_never_raises_failures_witness :
  Dashboard.hasFailures [completed (Sample.habit 2 0 0 0 true)] = false.
Proof.
  apply (proj1 (completing_never_raises_failures Sample.three 2
                  three_streaks_nonneg)).
  - right. left.
  - reflexivity.
Defined.

(** * The habit form *)

(** ** [trim] *)

Section Trim.

Let ws (c : N) : Prop := JSString.isWhiteSpace c = true.

Lemma trimStart_split (s : JSString.t) :
  exists pre, s = pre ++ JSString.trimStart s /\ Forall ws pre.
Proof.
  induction s as [|c r IH].
  - exists []. split; [reflexivity | constructor].
  - cbn [JSString.trimStart]. destruct (JSString.isWhiteSpace c) eqn:E.
    + destruct IH as (pre & Hr & Hpre). exists (c :: pre). split.
      * cbn [app]. f_equal. exact Hr.
      * constructor; assumption.
    + exists []. split; [reflexivity | constructor].
Qed.

Lemma trimStart_head (s : JSString.t) (c : N) (r : JSString.t) :
  JSString.trimStart s = c :: r -> JSString.isWhiteSpace c = false.
Proof.
  induction s as [|c0 r0 IH]; [discriminate|].
  cbn [JSString.trimStart]. destruct (JSString.isWhiteSpace c0) eqn:E.
  - exact IH.
  - intros [= <- _]. exact E.
Qed.

Lemma trimStart_all_ws (s : JSString.t) :
  Forall ws s -> JSString.trimStart s = [].
Proof.
  induction 1 as [|c r Hc _ IH]; [reflexivity|].
  cbn [JSString.trimStart]. unfold ws in Hc. rewrite Hc. exact IH.
Qed.

Lemma trimEnd_split (s : JSString.t) :
  exists post, s = JSString.trimEnd s ++ post /\ Forall ws post.
Proof.
  unfold JSString.trimEnd.
  destruct (trimStart_split (rev s)) as (pre & Hs & Hpre).
  exists (rev pre). split.
  - rewrite <- rev_app_distr, <- Hs, rev_involutive. reflexivity.
  - apply Forall_forall. intros c Hin.
    rewrite Forall_forall in Hpre. apply Hpre.
    apply list_elem_of_In. apply List.in_rev.
    apply list_elem_of_In. exact Hin.
Qed.

Lemma trimEnd_last (s b : JSString.t) (c : N) :
  JSString.trimEnd s = b ++ [c] -> JSString.isWhiteSpace c = false.
Proof.
  unfold JSString.trimEnd. intros H.
  apply (f_equal (@rev N)) in H.
  rewrite rev_involutive, rev_app_distr in H. cbn in H.
  exact (trimStart_head _ _ _ H).
Qed.

Lemma trimEnd_head (c : N) (r : JSString.t) :
  JSString.isWhiteSpace c = false ->
  exists r', JSString.trimEnd (c :: r) = c :: r'.
Proof.
  intros Hc. destruct (trimEnd_split (c :: r)) as (post & Hs & Hpost).
  destruct (JSString.trimEnd (c :: r)) as [|c' r'].
  - cbn in Hs. subst post. apply Forall_cons in Hpost.
    destruct Hpost as [Hws _]. unfold ws in Hws. congruence.
  - cbn in Hs. injection Hs as <- _. exists r'. reflexivity.
Qed.

(** [trim] removes white space at the two ends and nothing else. *)
Lemma trim_split (s : JSString.t) :
  exists pre post,
    s = pre ++ JSString.trim s ++ post /\ Forall ws pre /\ Forall ws post.
Proof.
  unfold JSString.trim.
  destruct (trimStart_split s) as (pre & Hs & Hpre).
  destruct (trimEnd_split (JSString.trimStart s)) as (post & Ht & Hpost).
  exists pre, post. split; [|split; assumption].
  rewrite <- Ht. exact Hs.
Qed.

Lemma trim_head (s : JSString.t) (c : N) (r : JSString.t) :
  JSString.trim s = c :: r -> JSString.isWhiteSpace c = false.
Proof.
  unfold JSString.trim.
  destruct (JSString.trimStart s) as [|c0 r0] eqn:E; [discriminate|].
  pose proof (trimStart_head _ _ _ E) as Hc0.
  destruct (trimEnd_head c0 r0 Hc0) as (r' & ->).
  intros [= <- _]. exact Hc0.
Qed.

Lemma trim_last (s b : JSString.t) (c : N) :
  JSString.trim s = b ++ [c] -> JSString.isWhiteSpace c = false.
Proof. unfold JSString.trim. apply trimEnd_last. Qed.

Lemma trim_nil_iff (s : JSString.t) :
  JSString.trim s = [] <-> Forall ws s.
Proof.
  split.
  - intros Hnil. destruct (trim_split s) as (pre & post & Hs & Hpre & Hpost).
    rewrite Hnil in Hs. rewrite Hs. cbn [app].
    apply Forall_app. split; assumption.
  - intros Hall. unfold JSString.trim.
    rewrite (trimStart_all_ws s Hall). reflexivity.
Qed.

End Trim.

(** X19. [handleSubmit] returns without submitting exactly when the name
    is made of white space only.  Otherwise the name it submits is the
    field with white space removed at its two ends and nowhere else, so
    it is not empty and neither starts nor ends with white space; the
    description and the reminder time are never submitted as empty
    strings, and emoji and frequency go through as they are. *)
Theorem handleSubmit_validates (f : HabitForm.fields) :
  (HabitForm.handleSubmit f = None
   <-> Forall (fun c => JSString.isWhiteSpace c = true) (HabitForm.name f))
  /\ forall d : HabitForm.submission,
      HabitForm.handleSubmit f = Some d ->
      (exists pre post,
          HabitForm.name f = pre ++ HabitForm.sub_name d ++ post
          /\ Forall (fun c => JSString.isWhiteSpace c = true) pre
          /\ Forall (fun c => JSString.isWhiteSpace c = true) post)
      /\ HabitForm.sub_name d <> []
      /\ (forall c r, HabitForm.sub_name d = c :: r
                      -> JSString.isWhiteSpace c = false)
      /\ (forall b c, HabitForm.sub_name d = b ++ [c]
                      -> JSString.isWhiteSpace c = false)
      /\ HabitForm.sub_description d <> Some []
      /\ HabitForm.sub_reminder_time d <> Some []
      /\ HabitForm.sub_emoji d = HabitForm.emoji f
      /\ HabitForm.sub_frequency d = HabitForm.frequency f.
Proof.
  unfold HabitForm.handleSubmit. split.
  - rewrite <- trim_nil_iff.
    destruct (JSString.trim (HabitForm.name f)); cbn; split;
      intros H; (reflexivity || discriminate).
  - intros d Hd.
    destruct (JSString.trim (HabitForm.name f)) as [|c0 r0] eqn:E;
      [discriminate|].
    cbn in Hd. injection Hd as <-. cbn.
    split; [|split; [|split; [|split; [|split; [|split; [|split]]]]]].
    + pose proof (trim_split (HabitForm.name f)) as Hsplit.
      rewrite E in Hsplit. exact Hsplit.
    + discriminate.
    + intros c r [= <- _]. exact (trim_head _ _ _ E).
    + intros b c Hb. rewrite <- E in Hb. exact (trim_last _ _ _ Hb).
    + unfold JSString.or_undefined.
      destruct (JSString.trim (HabitForm.description f)); cbn; discriminate.
    + unfold JSString.or_undefined.
      destruct (HabitForm.reminderTime f); cbn; discriminate.
    + reflexivity.
    + reflexivity.
Qed.

(** The name " Run " (U+0020 at both ends) is submitted as "Run". *)
Example handleSubmit_trims :
  HabitForm.sub_name
    <$> HabitForm.handleSubmit
          {| HabitForm.name := [0x20; 0x52; 0x75; 0x6E; 0x20]%N;
             HabitForm.description := [0x20; 0x09]%N;
             HabitForm.emoji := [0x2705]%N;
             HabitForm.frequency := [0x64]%N;
             HabitForm.reminderTime := [] |}
  = Some [0x52; 0x75; 0x6E]%N.
Proof. reflexivity. Qed.
